(** * GEDCOM user stories: a verification model of [stories.py]

    The development follows the module [stories.py]: the two decorators
    [log] and [story], then the user stories US01 .. US24 in the order of
    the source.  The modules [gedcom] and [tools] that [stories.py]
    imports are described by the record graph of the specification; what
    is taken from there is marked as such, and what neither the sources
    nor the specification settle is a parameter. *)

From Stdlib Require Import ZArith List String Bool Lia.
Import ListNotations.
Open Scope string_scope.
Open Scope list_scope.
Open Scope Z_scope.

(** ** Calendar values ([datetime.datetime]) *)

Module Calendar.

(** A [datetime]: the calendar date and the time of day in microseconds. *)
Record datetime := mk_datetime { year : Z; month : Z; day : Z; time : Z }.

Definition usec_per_day : Z := 86400000000.

Definition is_leap (y : Z) : bool :=
  (y mod 4 =? 0) && (negb (y mod 100 =? 0) || (y mod 400 =? 0)).

Definition days_before_year (y : Z) : Z :=
  let p := y - 1 in p * 365 + p / 4 - p / 100 + p / 400.

Definition days_before_month (y m : Z) : Z :=
  nth (Z.to_nat (m - 1)) [0; 31; 59; 90; 120; 151; 181; 212; 243; 273; 304; 334] 0
  + (if (2 <? m) && is_leap y then 1 else 0).

(** [datetime.toordinal()]: 1 is 1 January of year 1. *)
Definition toordinal (d : datetime) : Z :=
  days_before_year (year d) + days_before_month (year d) (month d) + day d.

(** [(a - b).days]: the days field of the normalised [timedelta]. *)
Definition sub_days (a b : datetime) : Z :=
  (toordinal a - toordinal b) + (time a - time b) / usec_per_day.

(** [a < b] and [a <= b] on [datetime]: field by field. *)
Definition ltb (a b : datetime) : bool :=
  (year a <? year b) || ((year a =? year b) &&
  ((month a <? month b) || ((month a =? month b) &&
  ((day a <? day b) || ((day a =? day b) && (time a <? time b)))))).

Definition eqb (a b : datetime) : bool :=
  (year a =? year b) && (month a =? month b) && (day a =? day b) && (time a =? time b).

Definition leb (a b : datetime) : bool := ltb a b || eqb a b.

(** A calendar date at midnight, as a GEDCOM [DATE] line resolves to. *)
Definition ymd (y m d : Z) : datetime := mk_datetime y m d 0.

End Calendar.
Export Calendar.

(** ** The module [tools] *)

(** Modelled from the spec: [tools.days_between] is not part of the
    sources at hand; the sibling-spacing rule speaks of the number of days
    by which two birth dates differ, so it is the absolute value of the
    day count between its arguments. *)
Definition days_between (a b : datetime) : Z := Z.abs (sub_days a b).

(** Modelled from the spec: [tools.years_between] is not part of the
    sources at hand; the specification asks for a signed whole number of
    years by calendar year, month and day comparison, not by division of a
    day count. *)
Definition years_between (a b : datetime) : Z :=
  year a - year b
  - (if (month a <? month b) || ((month a =? month b) && (day a <? day b)) then 1 else 0).

(** ** The record graph ([gedcom.File]) *)

(** Modelled from the spec: the module [gedcom] is not part of the sources
    at hand; its objects are the Individual, Family and Temporal Value of
    the specification's data model, with the attributes the stories read.
    A date-bearing line: the resolved [datetime] ([.dt], [.datetime]), its
    lineage, and the tag of the event it belongs to ([.parent.get("tag")]). *)
Record Date := mk_Date
  { dt : datetime; line_number : Z; line_value : string; parent_tag : string }.

(** Modelled from the spec: an individual has an identifier, a sex,
    optional birth and death events and its family links. *)
Record Individual := mk_Individual
  { indi_xref : string;
    sex : string;
    birth_date : option Date;
    death_date : option Date;
    famc : list string;      (* family-as-child links *)
    fams : list string }.    (* family-as-spouse links *)

(** Modelled from the spec: a family has an identifier, optional husband
    and wife references, child references and optional marriage and
    divorce events. *)
Record Family := mk_Family
  { fam_xref : string;
    husb : option string;
    wife_ref : option string;
    chil : list string;
    marriage_date : option Date;
    divorce_date : option Date }.

(** Modelled from the spec: the graph enumerates its individuals and
    families and answers the query for its date-bearing lines. *)
Record File := mk_File
  { individuals : list Individual;
    families : list Family;
    date_lines : list Date }.   (* what [find("tag", "DATE")] enumerates *)

(** Modelled from the spec: the duck-typed presence check
    [x.has("field")] of an optional attribute. *)
Definition has {A : Type} (field : option A) : bool :=
  match field with Some _ => true | None => false end.

(** Modelled from the spec: references resolve to the individuals and
    families of the graph by their identifiers. *)
Section Resolution.
Variable g : File.

Definition find_indi (x : string) : option Individual :=
  find (fun i => String.eqb (indi_xref i) x) (individuals g).

Definition find_fam (x : string) : option Family :=
  find (fun f => String.eqb (fam_xref f) x) (families g).

(** Links that resolve to nothing are dropped from the derived lists. *)
Fixpoint resolve {A : Type} (lookup : string -> option A) (l : list string) : list A :=
  match l with
  | [] => []
  | x :: t => match lookup x with
              | Some a => a :: resolve lookup t
              | None => resolve lookup t
              end
  end.

(** [fam.husband], [fam.wife]: [None] when the family has no such link. *)
Definition husband (fam : Family) : option Individual :=
  match husb fam with Some x => find_indi x | None => None end.

Definition wife (fam : Family) : option Individual :=
  match wife_ref fam with Some x => find_indi x | None => None end.

(** [fam.children] *)
Definition children (fam : Family) : list Individual := resolve find_indi (chil fam).

(** [indi.families("FAMS")] *)
Definition families_FAMS (indi : Individual) : list Family := resolve find_fam (fams indi).

(** Modelled from the spec: [indi.spouses] is not part of the sources at
    hand; it is the husband or wife counterpart of the individual across
    every family in which the individual is husband or wife. *)
Definition spouses (indi : Individual) : list Individual :=
  flat_map (fun fam =>
    match husband fam, wife fam with
    | Some h, Some w =>
        if String.eqb (indi_xref h) (indi_xref indi) then [w]
        else if String.eqb (indi_xref w) (indi_xref indi) then [h] else []
    | _, _ => []
    end) (families_FAMS indi).

End Resolution.

(** ** Python values *)

(** The end of a marriage interval: a date, or the open-ended marker of an
    ongoing marriage. *)
Inductive interval_end := EndAt (d : datetime) | OpenEnded.

(** The fragment of Python values the stories build.  Dictionaries keep
    their keys in insertion order.  [VRef] is a reference to a dictionary
    object of the store.  [VFormat] is a call of [str.format] kept with
    its template and arguments: the rendering of [gedcom] objects is not
    part of the sources at hand, so they stay arguments ([VIndi], [VFam],
    [VDate], [VAttr]); [VConcat] is the [+] of such texts. *)
#[warnings="-register-all"]
Inductive value : Type :=
| VNone
| VBool (b : bool)
| VInt (z : Z)
| VStr (s : string)
| VList (l : list value)
| VDict (d : list (string * value))
| VRef (loc : nat)
| VEnd (e : interval_end)
| VIndi (xref : string)
| VFam (xref : string)
| VDate (d : Date)
| VAttr (obj : value) (name : string)
| VFormat (template : string) (args : list value)
| VConcat (parts : list value).

Definition pydict := list (string * value).

Fixpoint dict_get (d : pydict) (k : string) : option value :=
  match d with
  | [] => None
  | (k', v) :: t => if String.eqb k' k then Some v else dict_get t k
  end.

(** [d[k] = v] *)
Fixpoint dict_set (d : pydict) (k : string) (v : value) : pydict :=
  match d with
  | [] => [(k, v)]
  | (k', v') :: t => if String.eqb k' k then (k, v) :: t else (k', v') :: dict_set t k v
  end.

(** [d.pop(k)] on a present key *)
Fixpoint dict_remove (d : pydict) (k : string) : pydict :=
  match d with
  | [] => []
  | (k', v') :: t => if String.eqb k' k then t else (k', v') :: dict_remove t k
  end.

(** [d.update(e)] *)
Definition dict_update (d e : pydict) : pydict :=
  fold_left (fun acc kv => dict_set acc (fst kv) (snd kv)) e d.

Definition keys (d : pydict) : list string := map fst d.

Definition opt_str (o : option string) : value :=
  match o with Some s => VStr s | None => VNone end.

(** Modelled from the spec: [story_dict] is not part of the sources at
    hand; it is the denormalised form of a date for evidence output, with
    the two keys the stories read back. *)
Definition story_dict (d : Date) : value :=
  VDict [("line_value", VStr (line_value d)); ("line_number", VInt (line_number d))].

Definition indi_arg (o : option Individual) : value :=
  match o with Some i => VIndi (indi_xref i) | None => VNone end.

Definition date_arg (o : option Date) : value :=
  match o with Some d => VDate d | None => VNone end.

(** [x.xref if fam.has("x") else None] *)
Definition xref_or_None (o : option Individual) : value :=
  match o with Some i => VStr (indi_xref i) | None => VNone end.

(** [d.story_dict if owner.has("d") else None] *)
Definition story_dict_or_None (o : option Date) : value :=
  match o with Some d => story_dict d | None => VNone end.

(** ** Execution: a store of dictionary objects, output, exceptions *)

Inductive exn :=
| TypeError (msg : string)
| AttributeError (attr : string)
| KeyError (key : string)
| UnboundLocalError (name : string).

(** One call of [logging.info] with its [extra] fields. *)
Record log_record := mk_log
  { log_message : value; story_id : value; status : string; story_name : value }.

(** What a call can observe and change: the [gedcom.File] object the
    caller holds, the dictionary objects allocated so far, what was
    printed and what was logged. *)
Record state := mk_state
  { graph : File;
    store : list pydict;
    stdout : list (list value);
    logged : list log_record }.

Inductive outcome (A : Type) :=
| Returns (a : A) (s : state)
| Raises (e : exn) (s : state).
Arguments Returns {A} a s.
Arguments Raises {A} e s.

Definition M (A : Type) : Type := state -> outcome A.

Definition ret {A : Type} (a : A) : M A := fun s => Returns a s.

Definition raise {A : Type} (e : exn) : M A := fun s => Raises e s.

Definition bind {A B : Type} (m : M A) (k : A -> M B) : M B :=
  fun s => match m s with
           | Returns a s' => k a s'
           | Raises e s' => Raises e s'
           end.

Declare Scope py_scope.
Delimit Scope py_scope with py.
Notation "x <- m ;; k" := (bind m (fun x => k))
  (at level 100, m at next level, right associativity) : py_scope.
Notation "m ;;; k" := (bind m (fun _ => k))
  (at level 100, right associativity) : py_scope.
Open Scope py_scope.

(** [for x in l: r = body(r, x)] *)
Fixpoint for_each {A R : Type} (l : list A) (body : R -> A -> M R) (r : R) : M R :=
  match l with
  | [] => ret r
  | x :: t => r' <- body r x ;; for_each t body r'
  end.

(** Python's short-circuit [a and b] on conditions that may raise. *)
Definition and_ (a b : M bool) : M bool :=
  x <- a ;; if x then b else ret false.

(** Attribute access [o.attr] on a value that may be [None]. *)
Definition attr {A : Type} (name : string) (o : option A) : M A :=
  match o with
  | Some a => ret a
  | None => raise (AttributeError name)
  end.

(** The argument of a story: the caller's [gedcom.File] object, or any
    other Python value. *)
Inductive argument := GedcomFile | NotAFile (v : value).

Definition is_gedcom_File (a : argument) : bool :=
  match a with GedcomFile => true | NotAFile _ => false end.

(** [gedcom_file.individuals], [.families], [.find]: the object behind the
    argument; any other value has no such attribute. *)
Definition File_of (a : argument) : M File :=
  match a with
  | GedcomFile => fun s => Returns (graph s) s
  | NotAFile _ => raise (AttributeError "gedcom.File")
  end.

(** A fresh dictionary object. *)
Definition alloc (d : pydict) : M value :=
  fun s => Returns (VRef (List.length (store s)))
                   (mk_state (graph s) (store s ++ [d]) (stdout s) (logged s)).

Fixpoint update_nth {A : Type} (n : nat) (x : A) (l : list A) : list A :=
  match l, n with
  | [], _ => []
  | _ :: t, O => x :: t
  | y :: t, S n' => y :: update_nth n' x t
  end.

Definition write (loc : nat) (d : pydict) : M unit :=
  fun s => Returns tt (mk_state (graph s) (update_nth loc d (store s)) (stdout s) (logged s)).

(** The items of a dictionary value, through a reference if it is one. *)
Definition items (v : value) : M pydict :=
  match v with
  | VDict d => ret d
  | VRef loc => fun s => match nth_error (store s) loc with
                         | Some d => Returns d s
                         | None => Raises (TypeError "dangling reference") s
                         end
  | _ => raise (TypeError "object is not subscriptable")
  end.

(** [v[k]] *)
Definition getitem (v : value) (k : string) : M value :=
  d <- items v ;;
  match dict_get d k with
  | Some x => ret x
  | None => raise (KeyError k)
  end.

(** [v.get(k, default)] *)
Definition get_default (v : value) (k : string) (default : value) : M value :=
  d <- items v ;;
  ret (match dict_get d k with Some x => x | None => default end).

(** [v[k] = x] on a dictionary object *)
Definition setitem (v : value) (k : string) (x : value) : M unit :=
  match v with
  | VRef loc => d <- items v ;; write loc (dict_set d k x)
  | _ => raise (TypeError "object does not support item assignment")
  end.

(** [v.pop(k)] on a dictionary object *)
Definition pop (v : value) (k : string) : M value :=
  match v with
  | VRef loc =>
      d <- items v ;;
      match dict_get d k with
      | Some x => write loc (dict_remove d k) ;;; ret x
      | None => raise (KeyError k)
      end
  | _ => raise (AttributeError "pop")
  end.

(** [for entry in v] over a list value *)
Definition elements (v : value) : M (list value) :=
  match v with
  | VList l => ret l
  | _ => raise (TypeError "object is not iterable")
  end.

(** The Python 2 [print] statement with its comma-separated operands. *)
Definition print (operands : list value) : M unit :=
  fun s => Returns tt (mk_state (graph s) (store s) (stdout s ++ [operands]) (logged s)).

Definition logging_info (msg id_ : value) (status_ : string) (name_ : value) : M unit :=
  fun s => Returns tt (mk_state (graph s) (store s) (stdout s)
                                (logged s ++ [mk_log msg id_ status_ name_])).

(** The local [r = {"passed": [], "failed": []}] of every story. *)
Record results := mk_results { passed : list value; failed : list value }.

Definition new_results : results := mk_results [] [].

Definition append_passed (r : results) (out : value) : results :=
  mk_results (passed r ++ [out]) (failed r).

Definition append_failed (r : results) (out : value) : results :=
  mk_results (passed r) (failed r ++ [out]).

(** [r["passed"].append(out) if ok else r["failed"].append(out)] *)
Definition append_by (ok : bool) (r : results) (out : value) : results :=
  if ok then append_passed r out else append_failed r out.

(** The dictionary a story returns as [r]. *)
Definition results_value (r : results) : value :=
  VDict [("passed", VList (passed r)); ("failed", VList (failed r))].

(** [itertools.combinations(l, 2)] *)
Fixpoint combinations2 {A : Type} (l : list A) : list (A * A) :=
  match l with
  | [] => []
  | x :: t => map (pair x) t ++ combinations2 t
  end.

(** Comparison of two [Date] objects: by their resolved calendar value. *)
Definition Date_lt (a b : Date) : bool := ltb (dt a) (dt b).
Definition Date_gt (a b : Date) : bool := ltb (dt b) (dt a).

(** [a < b] where [b] is an attribute that may be absent: the comparison
    reads [b.dt]. *)
Definition Date_lt_attr (a : Date) (b : option Date) : M bool :=
  b' <- attr "dt" b ;; ret (Date_lt a b').

(** ** The decorators *)

(** [log]: run the story, then one log line per evidence entry. *)
Definition log (func : argument -> M value) (gedcom_file : argument) : M value :=
  r <- func gedcom_file ;;
  ps <- (o <- getitem r "output" ;; l <- getitem o "passed" ;; elements l) ;;
  for_each ps (fun _ entry =>
     m <- get_default entry "message" (VStr "") ;;
     i <- getitem r "id" ;;
     n <- getitem r "name" ;;
     logging_info m i "Passed" n) tt ;;;
  fs <- (o <- getitem r "output" ;; l <- getitem o "failed" ;; elements l) ;;
  for_each fs (fun _ entry =>
     m <- get_default entry "message" (VStr "") ;;
     i <- getitem r "id" ;;
     n <- getitem r "name" ;;
     logging_info m i "Failed" n) tt ;;;
  ret r.

(** [story(id_)(func)]: the type check, the call, the result dictionary,
    all wrapped in [log]; [name] is [func.__name__]. *)
Definition story (id_ name : string) (func : argument -> M value) : argument -> M value :=
  log (fun gedcom_file =>
    if negb (is_gedcom_File gedcom_file)
    then raise (TypeError "Story function must be provided a gedcom file object.")
    else output <- func gedcom_file ;;
         ret (VDict [("id", VStr id_); ("name", VStr name); ("output", output)])).

(** ** Sprint 1 *)

Section Stories.

(** The module-level [NOW = datetime.now()] and [NOW_STRING]. *)
Variable NOW : datetime.
Variable NOW_STRING : string.

(** [fam.marriage_end]: the module [gedcom] is not among the sources at
    hand, and neither is what this accessor does on an access: whether
    it makes a new record of the end of the marriage or hands out one
    that the family holds.  It is a parameter of the stories, a
    computation that returns the record. *)
Variable marriage_end : Family -> M value.

(** US01: dates should not be after the current date. *)
Definition dates_before_current_date (gedcom_file : argument) : M value :=
  g <- File_of gedcom_file ;;
  r <- for_each (date_lines g) (fun r date =>
    let out := [("current_date", VStr NOW_STRING);
                ("type", VStr (parent_tag date));
                ("date", story_dict date)] in
    if ltb (dt date) NOW then
      let out := dict_set out "message"
        (VFormat "Date {0} is before {1} (current date)" [VDate date; VStr NOW_STRING]) in
      ret (append_passed r (VDict out))
    else
      let out := dict_set out "message"
        (VFormat "Date {0} is after {1} (current date)" [VDate date; VStr NOW_STRING]) in
      ret (append_failed r (VDict out))) new_results ;;
  ret (results_value r).

(** [indi.pronoun] *)
Definition pronoun (indi : Individual) : value := VAttr (VIndi (indi_xref indi)) "pronoun".

(** US02: birth should occur before marriage of an individual. *)
Definition birth_before_marriage (gedcom_file : argument) : M value :=
  let passed_msg := "Individual {0} born {1} before {2} marriage ({3}) on {4}" in
  let failed_msg := "Individual {0} born {1} after {2} marriage ({3}) on {4}" in
  g <- File_of gedcom_file ;;
  r <- for_each (filter (fun i => has (birth_date i)) (individuals g)) (fun r indi =>
    for_each (filter (fun fam => has (marriage_date fam)) (families_FAMS g indi)) (fun r fam =>
      birth <- attr "story_dict" (birth_date indi) ;;
      marr <- attr "story_dict" (marriage_date fam) ;;
      let out := [("indi", VDict [("xref", VStr (indi_xref indi));
                                  ("birth_date", story_dict birth)]);
                  ("fam", VDict [("xref", VStr (fam_xref fam));
                                 ("marr_date", story_dict marr)])] in
      let msg_out := [VIndi (indi_xref indi); VDate birth; pronoun indi;
                      VStr (fam_xref fam); VDate marr] in
      if Date_lt birth marr then
        ret (append_passed r (VDict (dict_set out "message" (VFormat passed_msg msg_out))))
      else
        ret (append_failed r (VDict (dict_set out "message" (VFormat failed_msg msg_out)))))
      r) new_results ;;
  ret (results_value r).

(** US03: birth should occur before death of an individual. *)
Definition birth_before_death (gedcom_file : argument) : M value :=
  let passed_message := "Individual {0} born {1} before {2} death on {3}" in
  let failed_message := "Individual {0} born {1} after {2} death on {3}" in
  g <- File_of gedcom_file ;;
  r <- for_each (filter (fun i => has (birth_date i) && has (death_date i)) (individuals g))
    (fun r indi =>
      birth <- attr "story_dict" (birth_date indi) ;;
      death <- attr "story_dict" (death_date indi) ;;
      let out := [("xref", VStr (indi_xref indi));
                  ("birth_date", story_dict birth);
                  ("death_date", story_dict death)] in
      let msg_out := [VIndi (indi_xref indi); VDate birth; pronoun indi; VDate death] in
      if Date_lt birth death then
        ret (append_passed r (VDict (dict_set out "message" (VFormat passed_message msg_out))))
      else
        ret (append_failed r (VDict (dict_set out "message" (VFormat failed_message msg_out)))))
    new_results ;;
  ret (results_value r).

(** US04: marriage should occur before divorce of spouses. *)
Definition marriage_before_divorce (gedcom_file : argument) : M value :=
  let passed_message :=
    "{0} with husband {1} and wife {2} has marriage on {3} before divorce on {4}" in
  let failed_message :=
    "{0} with husband {1} and wife {2} has marriage on {3} after divorce on {4}" in
  g <- File_of gedcom_file ;;
  r <- for_each (filter (fun f => has (marriage_date f) && has (divorce_date f)) (families g))
    (fun r fam =>
      marr <- attr "story_dict" (marriage_date fam) ;;
      div <- attr "story_dict" (divorce_date fam) ;;
      let out := [("family_xref", VStr (fam_xref fam));
                  ("husband_xref", xref_or_None (husband g fam));
                  ("wife_xref", xref_or_None (wife g fam));
                  ("marriage_date", story_dict marr);
                  ("divorce_date", story_dict div)] in
      let msg_out := [VFam (fam_xref fam); indi_arg (husband g fam); indi_arg (wife g fam);
                      VDate marr; VDate div] in
      if Date_lt marr div then
        ret (append_passed r (VDict (dict_set out "message" (VFormat passed_message msg_out))))
      else
        ret (append_failed r (VDict (dict_set out "message" (VFormat failed_message msg_out)))))
    new_results ;;
  ret (results_value r).

(** [fam.husband.has("death_date")], [fam.wife.has("death_date")]: the
    spouse is read without a presence check. *)
Definition spouse_has_death_date (spouse : option Individual) : M bool :=
  i <- attr "has" spouse ;; ret (has (death_date i)).

(** [fam.husband.death_date], [fam.wife.death_date] as a [Date] in use. *)
Definition spouse_death_date (spouse : option Individual) : M Date :=
  i <- attr "death_date" spouse ;; attr "dt" (death_date i).

(** [x.death_date.story_dict if fam.has("x") and fam.x.has("death_date") else None] *)
Definition death_story_dict_or_None (spouse : option Individual) : value :=
  match spouse with
  | Some i => story_dict_or_None (death_date i)
  | None => VNone
  end.

(** US05: marriage should occur before death of either spouse. *)
Definition marriage_before_death (gedcom_file : argument) : M value :=
  let pass_msg := "has {0} {1} with death {2} after marriage" in
  let fail_msg := "has {0} {1} with death {2} before marriage" in
  g <- File_of gedcom_file ;;
  r <- for_each (filter (fun f => has (marriage_date f)) (families g)) (fun r fam =>
    marr <- attr "story_dict" (marriage_date fam) ;;
    let out := [("family_xref", VStr (fam_xref fam));
                ("marriage_date", story_dict marr);
                ("husband_xref", xref_or_None (husband g fam));
                ("wife_xref", xref_or_None (wife g fam));
                ("husband_death_date", death_story_dict_or_None (husband g fam));
                ("wife_death_date", death_story_dict_or_None (wife g fam))] in
    let msg_intro := VFormat "{0} with marriage on {1} " [VFam (fam_xref fam); VDate marr] in
    let husb_args d := [VStr "husband"; indi_arg (husband g fam); VDate d] in
    let wife_args d := [VStr "wife"; indi_arg (wife g fam); VDate d] in
    both <- and_ (spouse_has_death_date (husband g fam))
                 (spouse_has_death_date (wife g fam)) ;;
    if both then
      hd <- spouse_death_date (husband g fam) ;;
      let '(passed, msg_husb) :=
        if Date_lt marr hd then (true, VFormat pass_msg (husb_args hd))
        else (false, VFormat fail_msg (husb_args hd)) in
      wd <- spouse_death_date (wife g fam) ;;
      let '(passed, msg_wife) :=
        if Date_lt marr wd then (passed && true, VFormat pass_msg (wife_args wd))
        else (passed && false, VFormat fail_msg (wife_args wd)) in
      let out := dict_set out "message"
                   (VConcat [msg_intro; msg_husb; VStr " and "; msg_wife]) in
      ret (append_by passed r (VDict out))
    else
      husb_dead <- spouse_has_death_date (husband g fam) ;;
      if husb_dead then
        hd <- spouse_death_date (husband g fam) ;;
        if Date_lt marr hd then
          ret (append_passed r (VDict (dict_set out "message"
                 (VConcat [msg_intro; VFormat pass_msg (husb_args hd)]))))
        else
          ret (append_failed r (VDict (dict_set out "message"
                 (VConcat [msg_intro; VFormat fail_msg (husb_args hd)]))))
      else
        wife_dead <- spouse_has_death_date (wife g fam) ;;
        if wife_dead then
          wd <- spouse_death_date (wife g fam) ;;
          if Date_lt marr wd then
            ret (append_passed r (VDict (dict_set out "message"
                   (VConcat [msg_intro; VFormat pass_msg (wife_args wd)]))))
          else
            ret (append_failed r (VDict (dict_set out "message"
                   (VConcat [msg_intro; VFormat fail_msg (wife_args wd)]))))
        else ret r) new_results ;;
  ret (results_value r).

(** US06: divorce can only occur before death of both spouses. *)
Definition divorce_before_death (gedcom_file : argument) : M value :=
  let pass_msg := "has {0} {1} with death {2} before divorce" in
  let fail_msg := "has {0} {1} with death {2} after divorce" in
  g <- File_of gedcom_file ;;
  r <- for_each (filter (fun f => has (divorce_date f)) (families g)) (fun r fam =>
    div <- attr "story_dict" (divorce_date fam) ;;
    (* the wife's entry is guarded by the husband's death date *)
    wife_death <-
      (if match husband g fam with Some h => has (death_date h) | None => false end
       then w <- attr "death_date" (wife g fam) ;;
            d <- attr "story_dict" (death_date w) ;;
            ret (story_dict d)
       else ret VNone) ;;
    let out := [("family_xref", VStr (fam_xref fam));
                ("divorce_date", story_dict div);
                ("husband_xref", xref_or_None (husband g fam));
                ("wife_xref", xref_or_None (wife g fam));
                ("husband_death_date", death_story_dict_or_None (husband g fam));
                ("wife_death_date", wife_death)] in
    let msg_intro := VFormat "{0} with divorce on {1} " [VFam (fam_xref fam); VDate div] in
    let husb_args d := [VStr "husband"; indi_arg (husband g fam); VDate d] in
    let wife_args d := [VStr "wife"; indi_arg (wife g fam); VDate d] in
    both <- and_ (spouse_has_death_date (husband g fam))
                 (spouse_has_death_date (wife g fam)) ;;
    if both then
      hd <- spouse_death_date (husband g fam) ;;
      let '(passed, msg_husb) :=
        if Date_lt hd div then (true, VFormat pass_msg (husb_args hd))
        else (false, VFormat fail_msg (husb_args hd)) in
      wd <- spouse_death_date (wife g fam) ;;
      let '(passed, msg_wife) :=
        if Date_lt wd div then (passed && true, VFormat pass_msg (wife_args wd))
        else (passed && false, VFormat pass_msg (wife_args wd)) in
      let out := dict_set out "message"
                   (VConcat [msg_intro; msg_husb; VStr " and "; msg_wife]) in
      ret (append_by passed r (VDict out))
    else
      husb_dead <- spouse_has_death_date (husband g fam) ;;
      if husb_dead then
        hd <- spouse_death_date (husband g fam) ;;
        if Date_lt hd div then
          ret (append_passed r (VDict (dict_set out "message"
                 (VConcat [msg_intro; VFormat pass_msg (husb_args hd)]))))
        else
          ret (append_failed r (VDict (dict_set out "message"
                 (VConcat [msg_intro; VFormat fail_msg (husb_args hd)]))))
      else
        wife_dead <- spouse_has_death_date (wife g fam) ;;
        if wife_dead then
          wd <- spouse_death_date (wife g fam) ;;
          if Date_lt wd div then
            ret (append_passed r (VDict (dict_set out "message"
                   (VConcat [msg_intro; VFormat pass_msg (wife_args wd)]))))
          else
            ret (append_failed r (VDict (dict_set out "message"
                   (VConcat [msg_intro; VFormat fail_msg (wife_args wd)]))))
        else ret r) new_results ;;
  ret (results_value r).

(** ** Sprint 2 *)

(** Modelled from the spec: [indi.age] is not part of the sources at
    hand; the lifespan is counted in calendar years from the birth date
    to the death date if present, else to the current processing date. *)
Definition age (indi : Individual) : M Z :=
  birth <- attr "dt" (birth_date indi) ;;
  ret (years_between (match death_date indi with Some d => dt d | None => NOW end)
                     (dt birth)).

(** US07: less than 150 years between birth and death, or birth and now. *)
Definition less_then_150_years_old (gedcom_file : argument) : M value :=
  let death_msg := "Individual {0} was born {1} and died {2} years later on {3}" in
  let alive_msg :=
    "Individual {0} was born {1} and is {2} years old as of {3} (current date)" in
  g <- File_of gedcom_file ;;
  r <- for_each (filter (fun i => has (birth_date i)) (individuals g)) (fun r indi =>
    birth <- attr "story_dict" (birth_date indi) ;;
    let out := [("xref", VStr (indi_xref indi)); ("birth_date", story_dict birth)] in
    out <-
      match death_date indi with
      | Some death =>
          a <- age indi ;;
          let out := dict_update out [("death_date", story_dict death);
                                      ("age_at_death", VInt a)] in
          a1 <- age indi ;;
          ret (dict_set out "message"
                 (VFormat death_msg [VIndi (indi_xref indi); VDate birth; VInt a1; VDate death]))
      | None =>
          a <- age indi ;;
          let out := dict_update out [("current_date", VStr NOW_STRING);
                                      ("current_age", VInt a)] in
          a1 <- age indi ;;
          ret (dict_set out "message"
                 (VFormat alive_msg [VIndi (indi_xref indi); VDate birth; VInt a1;
                                     VStr NOW_STRING]))
      end ;;
    a <- age indi ;;
    ret (append_by (a <? 150) r (VDict out))) new_results ;;
  ret (results_value r).

(** US08: child should be born after marriage of parents (and before
    their divorce). *)
Definition birth_before_marriage_of_parents (gedcom_file : argument) : M value :=
  let div_msg := "{0} with marriage date {1} and divorce date {2} has a child {3} born {4}" in
  let mar_msg := "{0} with marriage date {1} has a child {2} born {3}" in
  g <- File_of gedcom_file ;;
  r <- for_each (filter (fun f => has (marriage_date f)) (families g)) (fun r fam =>
    for_each (filter (fun c => has (birth_date c)) (children g fam)) (fun r child =>
      birth <- attr "story_dict" (birth_date child) ;;
      marr <- attr "story_dict" (marriage_date fam) ;;
      let out := [("family_xref", VStr (fam_xref fam));
                  ("child_xref", VStr (indi_xref child));
                  ("mother_xref", xref_or_None (wife g fam));
                  ("father_xref", xref_or_None (husband g fam));
                  ("child_birth_date", story_dict birth);
                  ("marriage_date", story_dict marr);
                  ("divorce_date", story_dict_or_None (divorce_date fam))] in
      let passed := Date_lt marr birth in
      let '(out, passed) :=
        match divorce_date fam with
        | Some div =>
            (dict_set out "message"
               (VFormat div_msg [VFam (fam_xref fam); VDate marr; VDate div;
                                 VIndi (indi_xref child); VDate birth]),
             passed && Date_gt div birth)
        | None =>
            (dict_set out "message"
               (VFormat mar_msg [VFam (fam_xref fam); VDate marr;
                                 VIndi (indi_xref child); VDate birth]),
             passed)
        end in
      ret (append_by passed r (VDict out))) r) new_results ;;
  ret (results_value r).

(** [x is None or x is True] on a clause that is [None], [True] or [False] *)
Definition None_or_True (x : option bool) : bool :=
  match x with None => true | Some b => b end.

(** The body of the loops of US09, for one child with a birth date. *)
Definition birth_before_death_of_parents_child (g : File) (fam : Family) (r : results)
                                               (child : Individual) : M results :=
  birth <- attr "story_dict" (birth_date child) ;;
  let out := [("family_xref", VStr (fam_xref fam));
              ("child", VDict [("xref", VStr (indi_xref child));
                               ("birth_date", story_dict birth)])] in
  let chk_mom := match wife g fam with Some w => has (death_date w) | None => false end in
  let chk_dad := match husband g fam with Some h => has (death_date h) | None => false end in
  mom_pass <-
    (if chk_mom
     then w <- attr "birth_date" (wife g fam) ;;
          b <- Date_lt_attr birth (birth_date w) ;; ret (Some b)
     else ret None) ;;
  dad_pass <-
    (if chk_dad
     then h <- attr "birth_date" (husband g fam) ;;
          hb <- attr "dt" (birth_date h) ;;
          ret (Some (9 <? sub_days (dt hb) (dt birth) / 30))
     else ret None) ;;
  let msg := [VFormat "{0} has Child {1} with birth date {2} and has"
                [VFam (fam_xref fam); VIndi (indi_xref child); VDate birth]] in
  step <-
    match mom_pass with
    | None =>
        ret (dict_set out "mother"
               (VDict [("xref", xref_or_None (wife g fam)); ("birth_date", VNone)]),
             msg ++ [VFormat " mother {0} with no death date" [indi_arg (wife g fam)]])
    | Some _ =>
        w <- attr "xref" (wife g fam) ;;
        wb <- attr "story_dict" (birth_date w) ;;
        ret (dict_set out "mother"
               (VDict [("xref", VStr (indi_xref w)); ("birth_date", story_dict wb)]),
             msg ++ [VFormat " mother {0} with death date {1}"
                       [VIndi (indi_xref w); date_arg (death_date w)]])
    end ;;
  let '(out, msg) := step in
  step <-
    match dad_pass with
    | None =>
        ret (dict_set out "father"
               (VDict [("xref", xref_or_None (husband g fam)); ("birth_date", VNone)]),
             msg ++ [VFormat " and father {0} with no death date."
                       [indi_arg (husband g fam)]])
    | Some _ =>
        h <- attr "xref" (husband g fam) ;;
        hb <- attr "story_dict" (birth_date h) ;;
        ret (dict_set out "father"
               (VDict [("xref", VStr (indi_xref h)); ("birth_date", story_dict hb)]),
             msg ++ [VFormat " and father {0} with death date {1}."
                       [VIndi (indi_xref h); date_arg (death_date h)]])
    end ;;
  let '(out, msg) := step in
  let out := dict_set out "message" (VConcat msg) in
  let passed := None_or_True mom_pass && None_or_True dad_pass in
  ret (append_by passed r (VDict out)).

(** US09: child should be born before death of mother and before 9
    months after death of father. *)
Definition birth_before_death_of_parents (gedcom_file : argument) : M value :=
  g <- File_of gedcom_file ;;
  r <- for_each (families g) (fun r fam =>
    for_each (filter (fun c => has (birth_date c)) (children g fam))
             (birth_before_death_of_parents_child g fam) r) new_results ;;
  ret (results_value r).

(** Modelled from the spec: [fam.wife_marriage_age] and
    [fam.husband_marriage_age] are not part of the sources at hand; the
    age of a spouse at the marriage is counted from the spouse's birth
    date to the marriage date in calendar years. *)
Definition marriage_age (fam : Family) (spouse : option Individual) : M Z :=
  marr <- attr "dt" (marriage_date fam) ;;
  i <- attr "birth_date" spouse ;;
  birth <- attr "dt" (birth_date i) ;;
  ret (years_between (dt marr) (dt birth)).

Definition wife_marriage_age (g : File) (fam : Family) : M Z := marriage_age fam (wife g fam).
Definition husband_marriage_age (g : File) (fam : Family) : M Z :=
  marriage_age fam (husband g fam).

(** [not fam.has("x") or not fam.x.has("birth_date")] *)
Definition lacks_birth_date (spouse : option Individual) : bool :=
  match spouse with
  | Some i => negb (has (birth_date i))
  | None => true
  end.

(** US10: marriage should be at least 14 years after birth of both
    spouses. *)
Definition marriage_after_14 (gedcom_file : argument) : M value :=
  let msg := ("{0} has marriage date {1} with wife {2} born {3} [married at {4} years old] "
             ++ "and husband {5} born {6} [married at {7} years old].")%string in
  g <- File_of gedcom_file ;;
  r <- for_each (families g) (fun r fam =>
    if negb (has (marriage_date fam)) then ret r else
    if lacks_birth_date (husband g fam) then ret r else
    if lacks_birth_date (wife g fam) then ret r else
    w <- attr "xref" (wife g fam) ;;
    wb <- attr "story_dict" (birth_date w) ;;
    w_age <- wife_marriage_age g fam ;;
    h <- attr "xref" (husband g fam) ;;
    hb <- attr "story_dict" (birth_date h) ;;
    h_age <- husband_marriage_age g fam ;;
    w_age' <- wife_marriage_age g fam ;;
    h_age' <- husband_marriage_age g fam ;;
    let out :=
      [("family", VDict [("xref", VStr (fam_xref fam))]);
       ("wife", VDict [("xref", VStr (indi_xref w));
                       ("birth_date", story_dict wb);
                       ("marriage_age", VInt w_age)]);
       ("husband", VDict [("xref", VStr (indi_xref h));
                          ("birth_date", story_dict hb);
                          ("marriage_age", VInt h_age)]);
       ("message", VFormat msg [VFam (fam_xref fam); date_arg (marriage_date fam);
                                VIndi (indi_xref w); VDate wb; VInt w_age';
                                VIndi (indi_xref h); VDate hb; VInt h_age'])] in
    passed <- and_ (a <- wife_marriage_age g fam ;; ret (14 <? a))
                   (a <- husband_marriage_age g fam ;; ret (14 <? a)) ;;
    ret (append_by passed r (VDict out))) new_results ;;
  ret (results_value r).

(** [start <= end] against the end of an interval: an open end is later
    than any date. *)
Definition datetime_le_end (start : datetime) (e : interval_end) : bool :=
  match e with EndAt d => leb start d | OpenEnded => true end.

(** [end >= start] *)
Definition end_ge_datetime (e : interval_end) (start : datetime) : bool :=
  match e with EndAt d => ltb start d || eqb d start | OpenEnded => true end.

(** [(start1.dt <= end2["dt"]) and (end1["dt"] >= start2.dt)] on the
    interval ends once read. *)
Definition overlap (start1 : datetime) (end1 : interval_end)
                   (start2 : datetime) (end2 : interval_end) : bool :=
  datetime_le_end start1 end2 && end_ge_datetime end1 start2.

Definition as_end (v : value) : M interval_end :=
  match v with
  | VEnd e => ret e
  | _ => raise (TypeError "can't compare datetime.datetime")
  end.

(** The same on the two dictionary objects, left to right. *)
Definition overlap_check (start1 : Date) (end1 : value) (start2 : Date) (end2 : value)
  : M bool :=
  and_ (e2 <- (v <- getitem end2 "dt" ;; as_end v) ;; ret (datetime_le_end (dt start1) e2))
       (e1 <- (v <- getitem end1 "dt" ;; as_end v) ;; ret (end_ge_datetime e1 (dt start2))).

(** US11: marriage should not occur during marriage to another spouse. *)
Definition no_bigamy (gedcom_file : argument) : M value :=
  let msg := ("Individual {0} is in {1} marriage starting {2} and ending {3} (line {4}) because {5}, and is in "
             ++ "{6} marriage starting {7} and ending {8} (line {9}) because {10}.")%string in
  g <- File_of gedcom_file ;;
  r <- for_each (individuals g) (fun r indi =>
    for_each (combinations2 (families_FAMS g indi)) (fun r pair =>
      let '(fam_1, fam_2) := pair in
      if negb (has (marriage_date fam_1)) then ret r else
      if negb (has (marriage_date fam_2)) then ret r else
      start1 <- attr "dt" (marriage_date fam_1) ;;
      end1 <- marriage_end fam_1 ;;
      start2 <- attr "dt" (marriage_date fam_2) ;;
      end2 <- marriage_end fam_2 ;;
      failed <- overlap_check start1 end1 start2 end2 ;;
      pop end1 "dt" ;;; pop end2 "dt" ;;;
      sd1 <- getitem end1 "story_dict" ;; value1 <- getitem sd1 "line_value" ;;
      sd1 <- getitem end1 "story_dict" ;; number1 <- getitem sd1 "line_number" ;;
      reason1 <- getitem end1 "reason" ;;
      sd2 <- getitem end2 "story_dict" ;; value2 <- getitem sd2 "line_value" ;;
      sd2 <- getitem end2 "story_dict" ;; number2 <- getitem sd2 "line_number" ;;
      reason2 <- getitem end2 "reason" ;;
      let out :=
        [("individual", VDict [("xref", VStr (indi_xref indi))]);
         ("family_1", VDict [("xref", VStr (fam_xref fam_1));
                             ("marriage_date", story_dict start1);
                             ("marriage_end", end1)]);
         ("family_2", VDict [("xref", VStr (fam_xref fam_2));
                             ("marriage_date", story_dict start2);
                             ("marriage_end", end2)]);
         ("message", VFormat msg [VIndi (indi_xref indi);
                                  VFam (fam_xref fam_1); VDate start1; value1; number1; reason1;
                                  VFam (fam_xref fam_2); VDate start2; value2; number2; reason2])] in
      ret (if failed then append_failed r (VDict out) else append_passed r (VDict out))) r)
    new_results ;;
  ret (results_value r).

(** US12: mother less than 60 years and father less than 80 years older
    than their children. *)
Definition parents_not_too_old (gedcom_file : argument) : M value :=
  let msg := ("{0} with child {1} born {2} has mother {3} born {4} [{5} years older than child] "
             ++ "and father {6} born {7} [{8} years older than child].")%string in
  g <- File_of gedcom_file ;;
  r <- for_each (families g) (fun r fam =>
    if negb (has (marriage_date fam)) then ret r else
    if lacks_birth_date (husband g fam) then ret r else
    if lacks_birth_date (wife g fam) then ret r else
    for_each (children g fam) (fun r child =>
      if negb (has (birth_date child)) then ret r else
      birth <- attr "dt" (birth_date child) ;;
      w <- attr "birth_date" (wife g fam) ;;
      wb <- attr "dt" (birth_date w) ;;
      let m_yrs_older := years_between (dt birth) (dt wb) in
      h <- attr "birth_date" (husband g fam) ;;
      hb <- attr "dt" (birth_date h) ;;
      let f_yrs_older := years_between (dt birth) (dt hb) in
      let out :=
        [("family", VDict [("xref", VStr (fam_xref fam))]);
         ("mother", VDict [("xref", VStr (indi_xref w));
                           ("birth_date", story_dict wb);
                           ("years_older", VInt m_yrs_older)]);
         ("father", VDict [("xref", VStr (indi_xref h));
                           ("birth_date", story_dict hb);
                           ("years_older", VInt f_yrs_older)]);
         ("child", VDict [("xref", VStr (indi_xref child));
                          ("birth_date", story_dict birth)]);
         ("message", VFormat msg [VFam (fam_xref fam); VIndi (indi_xref child); VDate birth;
                                  VIndi (indi_xref w); VDate wb; VInt m_yrs_older;
                                  VIndi (indi_xref h); VDate hb; VInt f_yrs_older])] in
      ret (append_by ((m_yrs_older <? 60) && (f_yrs_older <? 80)) r (VDict out))) r)
    new_results ;;
  ret (results_value r).

(** ** Sprint 3 *)

(** The [out] dictionary of US13 for one pair of siblings. *)
Definition spacing_out (g : File) (fam : Family) (sib_a : Individual) (birth_a : Date)
                       (sib_b : Individual) (birth_b : Date) (days : Z) : pydict :=
  [("family_xref", VStr (fam_xref fam));
   ("mother_xref", xref_or_None (wife g fam));
   ("father_xref", xref_or_None (husband g fam));
   ("days_apart", VInt days);
   ("sibling_one", VDict [("xref", VStr (indi_xref sib_a)); ("birth_date", story_dict birth_a)]);
   ("sibling_two", VDict [("xref", VStr (indi_xref sib_b)); ("birth_date", story_dict birth_b)]);
   ("message",
    VFormat "{0} has siblings born {1} days apart with {2} born on {3} and {4} born on {5}"
            [VFam (fam_xref fam); VInt days; VIndi (indi_xref sib_a); VDate birth_a;
             VIndi (indi_xref sib_b); VDate birth_b])].

(** US13: birth dates of siblings should be more than 8 months apart or
    less than 2 days apart (8 months taken as 240 days). *)
Definition siblings_spacing (gedcom_file : argument) : M value :=
  g <- File_of gedcom_file ;;
  r <- for_each (families g) (fun r fam =>
    let siblings := filter (fun c => has (birth_date c)) (children g fam) in
    if (2 <=? List.length siblings)%nat then
      for_each (combinations2 siblings) (fun r pair =>
        let '(sib_a, sib_b) := pair in
        birth_a <- attr "dt" (birth_date sib_a) ;;
        birth_b <- attr "dt" (birth_date sib_b) ;;
        let days := days_between (dt birth_a) (dt birth_b) in
        let out := spacing_out g fam sib_a birth_a sib_b birth_b days in
        ret (append_by ((days <? 2) || (240 <? days)) r (VDict out))) r
    else ret r) new_results ;;
  ret (results_value r).

(** US14, US15, US16: not implemented, [r] is returned as created. *)
Definition multiple_births_less_than_5 (gedcom_file : argument) : M value :=
  ret (results_value new_results).

Definition fewer_than_15_siblings (gedcom_file : argument) : M value :=
  ret (results_value new_results).

Definition male_last_names (gedcom_file : argument) : M value :=
  ret (results_value new_results).

(** US17: parents should not marry any of their descendants.  The loops
    only print. *)
Definition no_marriages_to_descendants (gedcom_file : argument) : M value :=
  g <- File_of gedcom_file ;;
  for_each (families g) (fun _ fam =>
    for_each (children g fam) (fun _ indi =>
      for_each (spouses g indi) (fun _ spouse =>
        print [VStr "~AB~ Fam = "; VFam (fam_xref fam); VStr " indi = ";
               VIndi (indi_xref indi); VStr " spouse = "; VIndi (indi_xref spouse)]) tt) tt) tt ;;;
  ret (results_value new_results).

(** The local variables of US18 that live across its loops: [r], and
    [out] and [msg_out], which are bound only once the innermost loop
    body has run. *)
Record locals := mk_locals
  { r_ : results; out_ : option value; msg_out_ : option (list value) }.

(** Reading a local variable that may not be bound yet. *)
Definition local {A : Type} (name : string) (o : option A) : M A :=
  match o with
  | Some a => ret a
  | None => raise (UnboundLocalError name)
  end.

(** US18: siblings should not marry one another. *)
Definition siblings_should_not_marry (gedcom_file : argument) : M value :=
  let passed_message := "Individual {0} is not married to any of {1} siblings" in
  let failed_message := "Individual {0} is married to {1} sibling {2}" in
  g <- File_of gedcom_file ;;
  l <- for_each (families g) (fun l fam =>
    for_each (children g fam) (fun l indi =>
      for_each (spouses g indi) (fun l spouse =>
        let married_to_sibling := 0 in
        st <- for_each
          (filter (fun s => negb (String.eqb (indi_xref s) (indi_xref indi))) (children g fam))
          (fun st sibling =>
            let '(l, married_to_sibling) := st in
            out <- alloc [("indi", VDict [("xref", VStr (indi_xref indi))]);
                          ("fam", VDict [("xref", VStr (fam_xref fam))])] ;;
            let msg_out := [VIndi (indi_xref indi); pronoun indi; VIndi (indi_xref sibling)] in
            if String.eqb (indi_xref sibling) (indi_xref spouse) then
              let married_to_sibling := married_to_sibling + 1 in
              setitem out "message" (VFormat failed_message msg_out) ;;;
              ret (mk_locals (append_failed (r_ l) out) (Some out) (Some msg_out),
                   married_to_sibling)
            else
              ret (mk_locals (r_ l) (Some out) (Some msg_out), married_to_sibling))
          (l, married_to_sibling) ;;
        let '(l, married_to_sibling) := st in
        if married_to_sibling =? 0 then
          msg_out <- local "msg_out" (msg_out_ l) ;;
          out <- local "out" (out_ l) ;;
          setitem out "message" (VFormat passed_message msg_out) ;;;
          ret (mk_locals (append_passed (r_ l) out) (out_ l) (msg_out_ l))
        else ret l) l) l) (mk_locals new_results None None) ;;
  ret (results_value (r_ l)).

(** ** Sprint 4 *)

(** US19 .. US24: not implemented, [r] is returned as created. *)
Definition first_cousins_should_not_marry (gedcom_file : argument) : M value :=
  ret (results_value new_results).

Definition aunts_and_uncles (gedcom_file : argument) : M value :=
  ret (results_value new_results).

Definition correct_gender_for_role (gedcom_file : argument) : M value :=
  ret (results_value new_results).

Definition unique_ids (gedcom_file : argument) : M value :=
  ret (results_value new_results).

Definition unique_name_and_birth_date (gedcom_file : argument) : M value :=
  ret (results_value new_results).

Definition unique_families_by_spouses (gedcom_file : argument) : M value :=
  ret (results_value new_results).

(** ** The decorated stories

    Every story of the module is [story(id)(func)]; the table lists them
    with the identifier of the decorator and the name of the function. *)
Definition catalog : list (string * string * (argument -> M value)) :=
  [ ("Error US01", "dates_before_current_date", dates_before_current_date);
    ("Error US02", "birth_before_marriage", birth_before_marriage);
    ("Error US03", "birth_before_death", birth_before_death);
    ("Error US04", "marriage_before_divorce", marriage_before_divorce);
    ("Error US05", "marriage_before_death", marriage_before_death);
    ("Error US06", "divorce_before_death", divorce_before_death);
    ("Error US07", "less_then_150_years_old", less_then_150_years_old);
    ("Anomaly US08", "birth_before_marriage_of_parents", birth_before_marriage_of_parents);
    ("Error US09", "birth_before_death_of_parents", birth_before_death_of_parents);
    ("Anomaly US10", "marriage_after_14", marriage_after_14);
    ("Anomaly US11", "no_bigamy", no_bigamy);
    ("Anomaly US12", "parents_not_too_old", parents_not_too_old);
    ("Anomaly US13", "siblings_spacing", siblings_spacing);
    ("Anomaly US14", "multiple_births_less_than_5", multiple_births_less_than_5);
    ("Anomaly US15", "fewer_than_15_siblings", fewer_than_15_siblings);
    ("Anomaly US16", "male_last_names", male_last_names);
    ("Anomaly US17", "no_marriages_to_descendants", no_marriages_to_descendants);
    ("Anomaly US18", "siblings_should_not_marry", siblings_should_not_marry);
    ("Anomaly US19", "first_cousins_should_not_marry", first_cousins_should_not_marry);
    ("Anomaly US20", "aunts_and_uncles", aunts_and_uncles);
    ("Error US21", "correct_gender_for_role", correct_gender_for_role);
    ("Error US22", "unique_ids", unique_ids);
    ("Anomaly US23", "unique_name_and_birth_date", unique_name_and_birth_date);
    ("Anomaly US24", "unique_families_by_spouses", unique_families_by_spouses) ].

(** The story as the module exports it. *)
Definition decorated (entry : string * string * (argument -> M value)) : argument -> M value :=
  let '(id_, name, func) := entry in story id_ name func.

End Stories.

(** * Well-formed record graphs *)

Fixpoint unique (l : list string) : bool :=
  match l with
  | [] => true
  | x :: t => negb (existsb (String.eqb x) t) && unique t
  end.

(** The invariants of the specification's data model: identifiers are
    unique across the graph, and the husband, wife, child and family
    links resolve. *)
Definition well_formed (g : File) : bool :=
  unique (map indi_xref (individuals g))
  && unique (map fam_xref (families g))
  && forallb (fun fam =>
       match husb fam with Some x => has (find_indi g x) | None => true end
       && match wife_ref fam with Some x => has (find_indi g x) | None => true end
       && forallb (fun x => has (find_indi g x)) (chil fam)) (families g)
  && forallb (fun indi =>
       forallb (fun x => has (find_fam g x)) (famc indi ++ fams indi)) (individuals g).

(** * Sample record graphs *)

Definition on_date (y m d line : Z) (text tag : string) : option Date :=
  Some (mk_Date (ymd y m d) line text tag).

(** A marriage on 1 JAN 2000 in a family that has a wife and no husband. *)
Definition graph_no_husband : File :=
  mk_File [mk_Individual "@I1@" "F" (on_date 1975 3 2 4 "2 MAR 1975" "BIRT") None [] ["@F1@"]]
          [mk_Family "@F1@" None (Some "@I1@") [] (on_date 2000 1 1 9 "1 JAN 2000" "MARR") None]
          [].

(** A divorce on 1 JAN 2000; the husband dies in 2010, the wife in 2011. *)
Definition graph_divorce_then_deaths : File :=
  mk_File [mk_Individual "@I1@" "M" None (on_date 2010 1 1 4 "1 JAN 2010" "DEAT") [] ["@F1@"];
           mk_Individual "@I2@" "F" None (on_date 2011 1 1 8 "1 JAN 2011" "DEAT") [] ["@F1@"]]
          [mk_Family "@F1@" (Some "@I1@") (Some "@I2@") []
                     None (on_date 2000 1 1 13 "1 JAN 2000" "DIV")]
          [].

(** The father dies on 1 JAN 1980, the child is born two months later,
    on 1 MAR 1980, and the mother dies in 2000. *)
Definition graph_posthumous_child : File :=
  mk_File [mk_Individual "@I1@" "M" (on_date 1950 1 1 3 "1 JAN 1950" "BIRT")
                         (on_date 1980 1 1 5 "1 JAN 1980" "DEAT") [] ["@F1@"];
           mk_Individual "@I2@" "F" (on_date 1952 1 1 9 "1 JAN 1952" "BIRT")
                         (on_date 2000 1 1 11 "1 JAN 2000" "DEAT") [] ["@F1@"];
           mk_Individual "@I3@" "F" (on_date 1980 3 1 15 "1 MAR 1980" "BIRT") None ["@F1@"] []]
          [mk_Family "@F1@" (Some "@I1@") (Some "@I2@") ["@I3@"] None None]
          [].

(** Both parents are alive; the child is born on 1 MAR 1980. *)
Definition graph_living_parents : File :=
  mk_File [mk_Individual "@I1@" "M" (on_date 1950 1 1 3 "1 JAN 1950" "BIRT") None [] ["@F1@"];
           mk_Individual "@I2@" "F" (on_date 1952 1 1 7 "1 JAN 1952" "BIRT") None [] ["@F1@"];
           mk_Individual "@I3@" "F" (on_date 1980 3 1 11 "1 MAR 1980" "BIRT") None ["@F1@"] []]
          [mk_Family "@F1@" (Some "@I1@") (Some "@I2@") ["@I3@"] None None]
          [].

(** The parents marry on 1 JUN 1975 and are not divorced; the child is
    born on 1 MAR 1980. *)
Definition graph_child_of_marriage : File :=
  mk_File [mk_Individual "@I1@" "M" (on_date 1950 1 1 3 "1 JAN 1950" "BIRT") None [] ["@F1@"];
           mk_Individual "@I2@" "F" (on_date 1952 1 1 7 "1 JAN 1952" "BIRT") None [] ["@F1@"];
           mk_Individual "@I3@" "F" (on_date 1980 3 1 11 "1 MAR 1980" "BIRT") None ["@F1@"] []]
          [mk_Family "@F1@" (Some "@I1@") (Some "@I2@") ["@I3@"]
                     (on_date 1975 6 1 13 "1 JUN 1975" "MARR") None]
          [].

(** The wife is born on 1 JAN 1986 and marries on 1 JAN 2000, the day she
    turns 14; the husband is 20. *)
Definition graph_married_at_14 : File :=
  mk_File [mk_Individual "@I1@" "M" (on_date 1980 1 1 3 "1 JAN 1980" "BIRT") None [] ["@F1@"];
           mk_Individual "@I2@" "F" (on_date 1986 1 1 7 "1 JAN 1986" "BIRT") None [] ["@F1@"]]
          [mk_Family "@F1@" (Some "@I1@") (Some "@I2@") []
                     (on_date 2000 1 1 12 "1 JAN 2000" "MARR") None]
          [].

(** An only child of family F1 who is the husband of family F2. *)
Definition graph_only_child_married : File :=
  mk_File [mk_Individual "@I1@" "M" None None ["@F1@"] ["@F2@"];
           mk_Individual "@I2@" "F" None None [] ["@F2@"]]
          [mk_Family "@F1@" None None ["@I1@"] None None;
           mk_Family "@F2@" (Some "@I1@") (Some "@I2@") [] None None]
          [].

(** Two children of one family: the first born on 1 JAN 2000, the second
    on day [d] of month [m] of the same year. *)
Definition graph_siblings (m d : Z) (text : string) : File :=
  mk_File [mk_Individual "@I1@" "M" (on_date 2000 1 1 3 "1 JAN 2000" "BIRT") None ["@F1@"] [];
           mk_Individual "@I2@" "F" (on_date 2000 m d 7 text "BIRT") None ["@F1@"] []]
          [mk_Family "@F1@" None None ["@I1@"; "@I2@"] None None]
          [].

(** One man in two marriages, of 2000 and of 2005, neither ended. *)
Definition graph_two_marriages : File :=
  mk_File [mk_Individual "@I1@" "M" None None [] ["@F1@"; "@F2@"];
           mk_Individual "@I2@" "F" None None [] ["@F1@"];
           mk_Individual "@I3@" "F" None None [] ["@F2@"]]
          [mk_Family "@F1@" (Some "@I1@") (Some "@I2@") []
                     (on_date 2000 1 1 12 "1 JAN 2000" "MARR") None;
           mk_Family "@F2@" (Some "@I1@") (Some "@I3@") []
                     (on_date 2005 1 1 17 "1 JAN 2005" "MARR") None]
          [].

(** A sample accessor for [fam.marriage_end]: every marriage is taken to
    be open, and each access makes a new record. *)
Definition open_marriage_end : Family -> M value :=
  fun _ => alloc [("dt", VEnd OpenEnded);
                  ("story_dict", VDict [("line_value", VNone); ("line_number", VNone)]);
                  ("reason", VStr "open")].

(** A marriage of 2000 between a husband born in 1970 and a wife without
    a birth date. *)
Definition graph_wife_without_birth_date : File :=
  mk_File [mk_Individual "@I1@" "M" (on_date 1970 5 6 3 "6 MAY 1970" "BIRT") None [] ["@F1@"];
           mk_Individual "@I2@" "F" None None [] ["@F1@"]]
          [mk_Family "@F1@" (Some "@I1@") (Some "@I2@") []
                     (on_date 2000 1 1 9 "1 JAN 2000" "MARR") None]
          [].

(** A divorce on 1 JAN 2000 in a family that has a husband, who died in
    2010, and no wife. *)
Definition graph_no_wife : File :=
  mk_File [mk_Individual "@I1@" "M" None (on_date 2010 1 1 4 "1 JAN 2010" "DEAT") [] ["@F1@"]]
          [mk_Family "@F1@" (Some "@I1@") None [] None (on_date 2000 1 1 9 "1 JAN 2000" "DIV")]
          [].

(** * The vocabulary of the properties *)

Definition initial (g : File) : state := mk_state g [] [] [].

(** A story function hands back its [r]: the two evidence lists. *)
Definition returns_results (func : argument -> M value) : Prop :=
  forall a s v s', func a s = Returns v s' -> exists r, v = results_value r.

(** The pairs of siblings that US13 examines in one family. *)
Definition sibling_pairs (g : File) (fam : Family) : list (Individual * Individual) :=
  combinations2 (filter (fun c => has (birth_date c)) (children g fam)).

(** One round of a loop that classifies its element and appends the
    evidence accordingly, or skips it. *)
Definition round {X : Type} (classify : X -> option (bool * value))
                 (r : results) (x : X) : results :=
  match classify x with
  | Some (ok, out) => append_by ok r out
  | None => r
  end.

(** [passed] for [true], [failed] for [false]. *)
Definition side (b : bool) (r : results) : list value :=
  if b then passed r else failed r.

(** The verdict on a day count. *)
Definition spacing_ok (days : Z) : bool := (days <? 2) || (240 <? days).

(** What US13 decides for one pair of siblings, and its evidence. *)
Definition spacing_verdict (g : File) (fam : Family) (pair : Individual * Individual)
  : option (bool * value) :=
  match birth_date (fst pair), birth_date (snd pair) with
  | Some birth_a, Some birth_b =>
      let days := days_between (dt birth_a) (dt birth_b) in
      Some (spacing_ok days,
            VDict (spacing_out g fam (fst pair) birth_a (snd pair) birth_b days))
  | _, _ => None
  end.

(** One round of the inner loop, as a function of [r]. *)
Definition spacing_round (g : File) (fam : Family)
  : results -> Individual * Individual -> results :=
  round (spacing_verdict g fam).

Definition spacing_results (g : File) : results :=
  fold_left (fun r fam => fold_left (spacing_round g fam) (sibling_pairs g fam) r)
            (families g) new_results.














(** ** The verdicts of the stories

    What a story decides for one examined entity, with the evidence it
    appends: [Some (true, out)] for [passed], [Some (false, out)] for
    [failed], [None] when the entity is skipped. *)

(** The evidence, in order, of the examined entities with the verdict [b]. *)
Definition evidence_of {X : Type} (b : bool) (classify : X -> option (bool * value))
                       (l : list X) : list value :=
  flat_map (fun x => match classify x with
                     | Some (b', out) => if Bool.eqb b' b then [out] else []
                     | None => []
                     end) l.

(** The result of judging every entity of a list. *)
Definition verdicts {X : Type} (classify : X -> option (bool * value)) (l : list X)
  : results :=
  mk_results (evidence_of true classify l) (evidence_of false classify l).

(** The pairs a loop within a loop goes through, in its order. *)
Definition pairs_of {Y X : Type} (inner : Y -> list X) (ys : list Y) : list (Y * X) :=
  flat_map (fun y => map (pair y) (inner y)) ys.

(** US03, for one individual. *)
Definition birth_before_death_verdict (indi : Individual) : option (bool * value) :=
  match birth_date indi, death_date indi with
  | Some birth, Some death =>
      let out := [("xref", VStr (indi_xref indi));
                  ("birth_date", story_dict birth);
                  ("death_date", story_dict death)] in
      let msg_out := [VIndi (indi_xref indi); VDate birth; pronoun indi; VDate death] in
      if Date_lt birth death
      then Some (true, VDict (dict_set out "message"
                   (VFormat "Individual {0} born {1} before {2} death on {3}" msg_out)))
      else Some (false, VDict (dict_set out "message"
                   (VFormat "Individual {0} born {1} after {2} death on {3}" msg_out)))
  | _, _ => None
  end.

(** US01, for one date line. *)
Definition dates_before_current_date_verdict (NOW : datetime) (NOW_STRING : string)
                                             (date : Date) : option (bool * value) :=
  let out := [("current_date", VStr NOW_STRING);
              ("type", VStr (parent_tag date));
              ("date", story_dict date)] in
  if ltb (dt date) NOW
  then Some (true, VDict (dict_set out "message"
               (VFormat "Date {0} is before {1} (current date)"
                        [VDate date; VStr NOW_STRING])))
  else Some (false, VDict (dict_set out "message"
               (VFormat "Date {0} is after {1} (current date)"
                        [VDate date; VStr NOW_STRING]))).

(** US02, for one individual and one of the families of which the
    individual is a spouse. *)
Definition birth_before_marriage_verdict (indi : Individual) (fam : Family)
  : option (bool * value) :=
  match birth_date indi, marriage_date fam with
  | Some birth, Some marr =>
      let out := [("indi", VDict [("xref", VStr (indi_xref indi));
                                  ("birth_date", story_dict birth)]);
                  ("fam", VDict [("xref", VStr (fam_xref fam));
                                 ("marr_date", story_dict marr)])] in
      let msg_out := [VIndi (indi_xref indi); VDate birth; pronoun indi;
                      VStr (fam_xref fam); VDate marr] in
      if Date_lt birth marr
      then Some (true, VDict (dict_set out "message"
                   (VFormat "Individual {0} born {1} before {2} marriage ({3}) on {4}"
                            msg_out)))
      else Some (false, VDict (dict_set out "message"
                   (VFormat "Individual {0} born {1} after {2} marriage ({3}) on {4}"
                            msg_out)))
  | _, _ => None
  end.

(** US04, for one family. *)
Definition marriage_before_divorce_verdict (g : File) (fam : Family)
  : option (bool * value) :=
  match marriage_date fam, divorce_date fam with
  | Some marr, Some div =>
      let out := [("family_xref", VStr (fam_xref fam));
                  ("husband_xref", xref_or_None (husband g fam));
                  ("wife_xref", xref_or_None (wife g fam));
                  ("marriage_date", story_dict marr);
                  ("divorce_date", story_dict div)] in
      let msg_out := [VFam (fam_xref fam); indi_arg (husband g fam); indi_arg (wife g fam);
                      VDate marr; VDate div] in
      if Date_lt marr div
      then Some (true, VDict (dict_set out "message"
                   (VFormat
                      "{0} with husband {1} and wife {2} has marriage on {3} before divorce on {4}"
                      msg_out)))
      else Some (false, VDict (dict_set out "message"
                   (VFormat
                      "{0} with husband {1} and wife {2} has marriage on {3} after divorce on {4}"
                      msg_out)))
  | _, _ => None
  end.

(** The age US07 judges: the calendar years from the birth to the death,
    or to [NOW] for the living. *)
Definition age_of (NOW : datetime) (indi : Individual) (birth : Date) : Z :=
  years_between (match death_date indi with Some d => dt d | None => NOW end) (dt birth).

(** US07, for one individual. *)
Definition less_then_150_years_old_verdict (NOW : datetime) (NOW_STRING : string)
                                           (indi : Individual) : option (bool * value) :=
  match birth_date indi with
  | Some birth =>
      let a := age_of NOW indi birth in
      let out := [("xref", VStr (indi_xref indi)); ("birth_date", story_dict birth)] in
      let out :=
        match death_date indi with
        | Some death =>
            dict_set (dict_update out [("death_date", story_dict death);
                                       ("age_at_death", VInt a)])
              "message"
              (VFormat "Individual {0} was born {1} and died {2} years later on {3}"
                       [VIndi (indi_xref indi); VDate birth; VInt a; VDate death])
        | None =>
            dict_set (dict_update out [("current_date", VStr NOW_STRING);
                                       ("current_age", VInt a)])
              "message"
              (VFormat
                 "Individual {0} was born {1} and is {2} years old as of {3} (current date)"
                 [VIndi (indi_xref indi); VDate birth; VInt a; VStr NOW_STRING])
        end in
      Some (a <? 150, VDict out)
  | None => None
  end.

(** US10, for one family. *)
Definition marriage_after_14_verdict (g : File) (fam : Family) : option (bool * value) :=
  match marriage_date fam, husband g fam, wife g fam with
  | Some marr, Some h, Some w =>
      match birth_date h, birth_date w with
      | Some hb, Some wb =>
          let w_age := years_between (dt marr) (dt wb) in
          let h_age := years_between (dt marr) (dt hb) in
          Some ((14 <? w_age) && (14 <? h_age),
                VDict
                  [("family", VDict [("xref", VStr (fam_xref fam))]);
                   ("wife", VDict [("xref", VStr (indi_xref w));
                                   ("birth_date", story_dict wb);
                                   ("marriage_age", VInt w_age)]);
                   ("husband", VDict [("xref", VStr (indi_xref h));
                                      ("birth_date", story_dict hb);
                                      ("marriage_age", VInt h_age)]);
                   ("message",
                    VFormat
                      ("{0} has marriage date {1} with wife {2} born {3} [married at {4} years old] "
                       ++ "and husband {5} born {6} [married at {7} years old].")%string
                      [VFam (fam_xref fam); VDate marr;
                       VIndi (indi_xref w); VDate wb; VInt w_age;
                       VIndi (indi_xref h); VDate hb; VInt h_age])])
      | _, _ => None
      end
  | _, _, _ => None
  end.

(** US08, for one family and one of its children. *)
Definition birth_before_marriage_of_parents_verdict (g : File) (fam : Family)
                                                    (child : Individual)
  : option (bool * value) :=
  match marriage_date fam, birth_date child with
  | Some marr, Some birth =>
      let out := [("family_xref", VStr (fam_xref fam));
                  ("child_xref", VStr (indi_xref child));
                  ("mother_xref", xref_or_None (wife g fam));
                  ("father_xref", xref_or_None (husband g fam));
                  ("child_birth_date", story_dict birth);
                  ("marriage_date", story_dict marr);
                  ("divorce_date", story_dict_or_None (divorce_date fam))] in
      match divorce_date fam with
      | Some div =>
          Some (Date_lt marr birth && Date_gt div birth,
                VDict (dict_set out "message"
                  (VFormat
                     "{0} with marriage date {1} and divorce date {2} has a child {3} born {4}"
                     [VFam (fam_xref fam); VDate marr; VDate div;
                      VIndi (indi_xref child); VDate birth])))
      | None =>
          Some (Date_lt marr birth,
                VDict (dict_set out "message"
                  (VFormat "{0} with marriage date {1} has a child {2} born {3}"
                     [VFam (fam_xref fam); VDate marr;
                      VIndi (indi_xref child); VDate birth])))
      end
  | _, _ => None
  end.

(** US12, for one family and one of its children. *)
Definition parents_not_too_old_verdict (g : File) (fam : Family) (child : Individual)
  : option (bool * value) :=
  match marriage_date fam, husband g fam, wife g fam with
  | Some _, Some h, Some w =>
      match birth_date h, birth_date w, birth_date child with
      | Some hb, Some wb, Some birth =>
          let m_yrs_older := years_between (dt birth) (dt wb) in
          let f_yrs_older := years_between (dt birth) (dt hb) in
          Some ((m_yrs_older <? 60) && (f_yrs_older <? 80),
                VDict
                  [("family", VDict [("xref", VStr (fam_xref fam))]);
                   ("mother", VDict [("xref", VStr (indi_xref w));
                                     ("birth_date", story_dict wb);
                                     ("years_older", VInt m_yrs_older)]);
                   ("father", VDict [("xref", VStr (indi_xref h));
                                     ("birth_date", story_dict hb);
                                     ("years_older", VInt f_yrs_older)]);
                   ("child", VDict [("xref", VStr (indi_xref child));
                                    ("birth_date", story_dict birth)]);
                   ("message",
                    VFormat
                      ("{0} with child {1} born {2} has mother {3} born {4} [{5} years older than child] "
                       ++ "and father {6} born {7} [{8} years older than child].")%string
                      [VFam (fam_xref fam); VIndi (indi_xref child); VDate birth;
                       VIndi (indi_xref w); VDate wb; VInt m_yrs_older;
                       VIndi (indi_xref h); VDate hb; VInt f_yrs_older])])
      | _, _, _ => None
      end
  | _, _, _ => None
  end.

(** ** Stories that read a spouse without a presence check *)

(** The exception of the first entity of a loop that has one. *)
Fixpoint first_error {X : Type} (error : X -> option exn) (l : list X) : option exn :=
  match l with
  | [] => None
  | x :: t => match error x with
              | Some e => Some e
              | None => first_error error t
              end
  end.

(** The death date of a spouse, if there is one on record. *)
Definition death_of (spouse : option Individual) : option Date :=
  match spouse with Some i => death_date i | None => None end.

(** US05 reads [fam.husband.has] and [fam.wife.has] of every family with a
    marriage date. *)
Definition marriage_before_death_error (g : File) (fam : Family) : option exn :=
  if has (husband g fam) && has (wife g fam) then None
  else Some (AttributeError "has").

(** US05, for one family with both spouses. *)
Definition marriage_before_death_verdict (g : File) (fam : Family)
  : option (bool * value) :=
  match marriage_date fam with
  | None => None
  | Some marr =>
      let out := [("family_xref", VStr (fam_xref fam));
                  ("marriage_date", story_dict marr);
                  ("husband_xref", xref_or_None (husband g fam));
                  ("wife_xref", xref_or_None (wife g fam));
                  ("husband_death_date", death_story_dict_or_None (husband g fam));
                  ("wife_death_date", death_story_dict_or_None (wife g fam))] in
      let msg_intro := VFormat "{0} with marriage on {1} " [VFam (fam_xref fam); VDate marr] in
      let says (who : string) (spouse : option Individual) (d : Date) :=
        VFormat (if Date_lt marr d then "has {0} {1} with death {2} after marriage"
                 else "has {0} {1} with death {2} before marriage")
                [VStr who; indi_arg spouse; VDate d] in
      match death_of (husband g fam), death_of (wife g fam) with
      | Some hd, Some wd =>
          Some (Date_lt marr hd && Date_lt marr wd,
                VDict (dict_set out "message"
                  (VConcat [msg_intro; says "husband" (husband g fam) hd; VStr " and ";
                            says "wife" (wife g fam) wd])))
      | Some hd, None =>
          Some (Date_lt marr hd,
                VDict (dict_set out "message"
                  (VConcat [msg_intro; says "husband" (husband g fam) hd])))
      | None, Some wd =>
          Some (Date_lt marr wd,
                VDict (dict_set out "message"
                  (VConcat [msg_intro; says "wife" (wife g fam) wd])))
      | None, None => None
      end
  end.

(** US06 reads the husband, and the wife's death date whenever the
    husband has one. *)
Definition divorce_before_death_error (g : File) (fam : Family) : option exn :=
  match husband g fam, wife g fam with
  | None, _ => Some (AttributeError "has")
  | Some h, None =>
      if has (death_date h) then Some (AttributeError "death_date")
      else Some (AttributeError "has")
  | Some h, Some w =>
      if has (death_date h) && negb (has (death_date w))
      then Some (AttributeError "story_dict")
      else None
  end.

(** US06, for one family it gets through: both spouses dead, or the wife
    alone. *)
Definition divorce_before_death_verdict (g : File) (fam : Family)
  : option (bool * value) :=
  match divorce_date fam with
  | None => None
  | Some div =>
      let out (wife_death : value) :=
        [("family_xref", VStr (fam_xref fam));
         ("divorce_date", story_dict div);
         ("husband_xref", xref_or_None (husband g fam));
         ("wife_xref", xref_or_None (wife g fam));
         ("husband_death_date", death_story_dict_or_None (husband g fam));
         ("wife_death_date", wife_death)] in
      let msg_intro := VFormat "{0} with divorce on {1} " [VFam (fam_xref fam); VDate div] in
      let pass_msg := "has {0} {1} with death {2} before divorce" in
      let fail_msg := "has {0} {1} with death {2} after divorce" in
      let husb_args d := [VStr "husband"; indi_arg (husband g fam); VDate d] in
      let wife_args d := [VStr "wife"; indi_arg (wife g fam); VDate d] in
      match death_of (husband g fam), death_of (wife g fam) with
      | Some hd, Some wd =>
          Some (Date_lt hd div && Date_lt wd div,
                VDict (dict_set (out (story_dict wd)) "message"
                  (VConcat [msg_intro;
                            VFormat (if Date_lt hd div then pass_msg else fail_msg)
                                    (husb_args hd);
                            VStr " and ";
                            VFormat pass_msg (wife_args wd)])))
      | None, Some wd =>
          Some (Date_lt wd div,
                VDict (dict_set (out VNone) "message"
                  (VConcat [msg_intro;
                            VFormat (if Date_lt wd div then pass_msg else fail_msg)
                                    (wife_args wd)])))
      | _, None => None
      end
  end.

(** ** Intervals, counts and output *)

(** An interval end strictly before a date; an open end is before none. *)
Definition ends_before (e : interval_end) (start : datetime) : bool :=
  match e with EndAt d => ltb d start | OpenEnded => false end.

(** The number of children of a family that have a birth date. *)
Definition dated_children (g : File) (fam : Family) : nat :=
  List.length (filter (fun c => has (birth_date c)) (children g fam)).

(** The state after the given lines were printed. *)
Definition printed (lines : list (list value)) (s : state) : state :=
  mk_state (graph s) (store s) (stdout s ++ lines) (logged s).

(** The line US17 prints for a family, a child of it and a spouse of the
    child. *)
Definition descendants_line (fam : Family) (indi spouse : Individual) : list value :=
  [VStr "~AB~ Fam = "; VFam (fam_xref fam); VStr " indi = ";
   VIndi (indi_xref indi); VStr " spouse = "; VIndi (indi_xref spouse)].

(** The lines of US17 for a record graph, in the order of its loops. *)
Definition descendants_lines (g : File) : list (list value) :=
  flat_map (fun fam =>
    flat_map (fun indi => map (descendants_line fam indi) (spouses g indi))
             (children g fam))
    (families g).

(** ** US09 on families whose dead parents have birth dates *)

(** A parent with a death date and a birth date: the parent US09 holds a
    child's birth against. *)
Definition dead_parent (spouse : option Individual) : option (Individual * Date) :=
  match spouse with
  | Some i => match death_date i, birth_date i with
              | Some _, Some birth => Some (i, birth)
              | _, _ => None
              end
  | None => None
  end.

(** A parent with a death date has a birth date too. *)
Definition parent_dated (spouse : option Individual) : bool :=
  match spouse with
  | Some i => negb (has (death_date i)) || has (birth_date i)
  | None => true
  end.

(** The children with a birth date, family by family. *)
Definition dated_children_of (g : File) : list (Family * Individual) :=
  pairs_of (fun fam => filter (fun c => has (birth_date c)) (children g fam)) (families g).

(** US09, for one family and one of its children. *)
Definition birth_before_death_of_parents_verdict (g : File) (fam : Family)
                                                 (child : Individual)
  : option (bool * value) :=
  match birth_date child with
  | None => None
  | Some birth =>
      let out := [("family_xref", VStr (fam_xref fam));
                  ("child", VDict [("xref", VStr (indi_xref child));
                                   ("birth_date", story_dict birth)])] in
      let msg := VFormat "{0} has Child {1} with birth date {2} and has"
                   [VFam (fam_xref fam); VIndi (indi_xref child); VDate birth] in
      let mom_pass := match dead_parent (wife g fam) with
                      | Some (_, wb) => Date_lt birth wb
                      | None => true
                      end in
      let dad_pass := match dead_parent (husband g fam) with
                      | Some (_, hb) => 9 <? sub_days (dt hb) (dt birth) / 30
                      | None => true
                      end in
      let mother := match dead_parent (wife g fam) with
                    | Some (w, wb) =>
                        (VDict [("xref", VStr (indi_xref w)); ("birth_date", story_dict wb)],
                         VFormat " mother {0} with death date {1}"
                                 [VIndi (indi_xref w); date_arg (death_date w)])
                    | None =>
                        (VDict [("xref", xref_or_None (wife g fam)); ("birth_date", VNone)],
                         VFormat " mother {0} with no death date" [indi_arg (wife g fam)])
                    end in
      let father := match dead_parent (husband g fam) with
                    | Some (h, hb) =>
                        (VDict [("xref", VStr (indi_xref h)); ("birth_date", story_dict hb)],
                         VFormat " and father {0} with death date {1}."
                                 [VIndi (indi_xref h); date_arg (death_date h)])
                    | None =>
                        (VDict [("xref", xref_or_None (husband g fam));
                                ("birth_date", VNone)],
                         VFormat " and father {0} with no death date."
                                 [indi_arg (husband g fam)])
                    end in
      Some (mom_pass && dad_pass,
            VDict (dict_set (dict_set (dict_set out "mother" (fst mother))
                                      "father" (fst father))
                            "message" (VConcat [msg; snd mother; snd father])))
  end.

(** ** What the decorators log *)

(** [entry.get("message", "")] on an entry that is a dictionary, or a
    dictionary object of the store. *)
Definition message_in (st : list pydict) (entry : value) : value :=
  let get (d : pydict) :=
    match dict_get d "message" with Some m => m | None => VStr "" end in
  match entry with
  | VDict d => get d
  | VRef loc => match nth_error st loc with Some d => get d | None => VStr "" end
  | _ => VStr ""
  end.

Definition is_dict_in (st : list pydict) (entry : value) : Prop :=
  match entry with
  | VDict _ => True
  | VRef loc => (loc < List.length st)%nat
  | _ => False
  end.

(** One log record per entry. *)
Definition log_records (st : list pydict) (id_ name status_ : string)
                       (entries : list value) : list log_record :=
  map (fun entry => mk_log (message_in st entry) (VStr id_) status_ (VStr name)) entries.

(** The state after the given records were logged. *)
Definition logging (records : list log_record) (s : state) : state :=
  mk_state (graph s) (store s) (stdout s) (logged s ++ records).

(** ** US11 on the pairs of marriages of an individual *)






(** * Properties *)

(** ** Reasoning about runs *)

Lemma bind_Returns {A B : Type} (m : M A) (k : A -> M B) s b s' :
  bind m k s = Returns b s' ->
  exists a s1, m s = Returns a s1 /\ k a s1 = Returns b s'.
Proof.
  unfold bind. destruct (m s) as [a s1 | e s1]; intros H.
  - exists a, s1. split; [reflexivity | exact H].
  - discriminate H.
Qed.

Lemma ret_Returns {A : Type} (a b : A) s s' : ret a s = Returns b s' -> a = b /\ s = s'.
Proof. unfold ret. intros H. injection H as -> ->. split; reflexivity. Qed.


Lemma bind_run {A B : Type} (m : M A) (k : A -> M B) s a s1 :
  m s = Returns a s1 -> bind m k s = k a s1.
Proof. unfold bind. intros ->. reflexivity. Qed.

Lemma bind_File_of {B : Type} (k : File -> M B) s :
  bind (File_of GedcomFile) k s = k (graph s) s.
Proof. reflexivity. Qed.


Ltac invert_binds H :=
  repeat (apply bind_Returns in H; destruct H as (? & ? & _ & H); cbv beta in H).





(** A loop whose rounds neither raise nor touch the state is a fold. *)
Lemma for_each_fold {A R : Type} (body : R -> A -> M R) (f : R -> A -> R) :
  forall (l : list A),
    (forall x r s, In x l -> body r x s = Returns (f r x) s) ->
    forall r s, for_each l body r s = Returns (fold_left f l r) s.
Proof.
  induction l as [| x t IH]; intros Hbody r s; simpl.
  - reflexivity.
  - unfold bind. rewrite (Hbody x r s (or_introl eq_refl)).
    apply IH. intros y r1 s1 Hy. apply Hbody. right. exact Hy.
Qed.


Lemma In_side_append_by (b ok : bool) (v out : value) (r : results) :
  In v (side b (append_by ok r out)) <-> In v (side b r) \/ (ok = b /\ out = v).
Proof.
  destruct b, ok; simpl; rewrite ?in_app_iff; simpl; split; intros H.
  all: try (destruct H as [H | [H | []]]; [left; exact H | right; split; [reflexivity | exact H]]).
  all: try (destruct H as [H | [_ H]]; [left; exact H | right; left; exact H]).
  all: try (left; exact H).
  all: try (destruct H as [H | [H _]]; [exact H | discriminate H]).
Qed.

(** ** The record graph *)







Lemma In_combinations2 {A : Type} (a b : A) :
  forall l, In (a, b) (combinations2 l) -> In a l /\ In b l.
Proof.
  induction l as [| x t IH]; simpl; intros H; [contradiction |].
  apply in_app_or in H. destruct H as [H | H].
  - apply in_map_iff in H. destruct H as (y & Heq & Hy).
    injection Heq as <- <-. split; [left; reflexivity | right; exact Hy].
  - apply IH in H. destruct H as [Ha Hb]. split; right; assumption.
Qed.

Lemma combinations2_short {A : Type} (l : list A) :
  (2 <=? List.length l)%nat = false -> combinations2 l = [].
Proof.
  destruct l as [| x [| y t]]; simpl; intros H; try reflexivity.
  discriminate H.
Qed.


(** The sample graphs keep the invariants of the data model. *)
Lemma sample_graphs_well_formed :
  forallb well_formed
          [graph_no_husband; graph_divorce_then_deaths; graph_posthumous_child;
           graph_living_parents; graph_married_at_14; graph_only_child_married;
           graph_siblings 1 3 "3 JAN 2000"; graph_siblings 8 29 "29 AUG 2000";
           graph_two_marriages; graph_wife_without_birth_date; graph_no_wife;
           graph_child_of_marriage] = true.
Proof. vm_compute. reflexivity. Qed.

(** ** The decorators: the result of a story, and when it raises *)

Ltac solve_returns_results :=
  let H := fresh "H" in
  intros ? ? ? ? H;
  invert_binds H;
  apply ret_Returns in H; destruct H as [<- _];
  eexists; reflexivity.

Lemma catalog_returns_results (NOW : datetime) (NOW_STRING : string)
      (marriage_end : Family -> M value) :
  Forall (fun entry => returns_results (snd entry)) (catalog NOW NOW_STRING marriage_end).
Proof.
  unfold catalog.
  repeat (apply Forall_cons; [simpl; solve_returns_results |]).
  apply Forall_nil.
Qed.

(** [log] hands back what the wrapped function returned. *)
Lemma log_Returns (func : argument -> M value) a s v s' :
  log func a s = Returns v s' -> exists s1, func a s = Returns v s1.
Proof.
  unfold log. intros H.
  apply bind_Returns in H. destruct H as (r & s1 & Hfunc & H).
  invert_binds H.
  apply ret_Returns in H. destruct H as [<- _].
  exists s1. exact Hfunc.
Qed.

Lemma story_Returns (id_ name : string) (func : argument -> M value) a s v s' :
  story id_ name func a s = Returns v s' ->
  a = GedcomFile /\
  exists output s0 s1,
    func a s0 = Returns output s1 /\
    v = VDict [("id", VStr id_); ("name", VStr name); ("output", output)].
Proof.
  unfold story. intros H.
  apply log_Returns in H. destruct H as (s1 & H).
  destruct a as [| x]; simpl in H; [| discriminate H].
  split; [reflexivity |].
  apply bind_Returns in H. destruct H as (output & s2 & Hfunc & H).
  apply ret_Returns in H. destruct H as [<- _].
  exists output, s, s2. split; [exact Hfunc | reflexivity].
Qed.

(** C6, as stated, fails: the dictionary a decorated story returns has the
    keys [id], [name] and [output]; [passed] and [failed] are not keys of
    it. *)
Lemma story_result_nests_evidence :
  exists d s',
    story "Error US02" "birth_before_marriage" birth_before_marriage GedcomFile
          (initial graph_no_husband)
    = Returns (VDict d) s'
    /\ keys d = ["id"; "name"; "output"]
    /\ dict_get d "passed" = None
    /\ dict_get d "failed" = None.
Proof. do 2 eexists. repeat split; vm_compute; reflexivity. Qed.

(** C6, amended: whenever a decorated story of the catalog returns, the
    value is a dictionary with the three keys [id], [name] and [output],
    and the two evidence lists [passed] and [failed] are the keys of the
    dictionary under [output]. *)
Theorem decorated_story_result (NOW : datetime) (NOW_STRING : string)
        (marriage_end : Family -> M value)
        (id_ name : string) (func : argument -> M value) (a : argument) (s s' : state)
        (v : value) :
  In (id_, name, func) (catalog NOW NOW_STRING marriage_end) ->
  decorated (id_, name, func) a s = Returns v s' ->
  exists p f,
    v = VDict [("id", VStr id_); ("name", VStr name);
               ("output", VDict [("passed", VList p); ("failed", VList f)])].
Proof.
  intros Hin Hrun.
  pose proof (catalog_returns_results NOW NOW_STRING marriage_end) as Hall.
  rewrite Forall_forall in Hall.
  specialize (Hall _ Hin). simpl in Hall.
  simpl in Hrun.
  apply story_Returns in Hrun.
  destruct Hrun as (_ & output & s0 & s1 & Hfunc & ->).
  apply Hall in Hfunc. destruct Hfunc as (r & ->).
  exists (passed r), (failed r). reflexivity.
Qed.

Lemma decorated_story_result_witness :
  exists v s',
    decorated ("Error US02", "birth_before_marriage", birth_before_marriage) GedcomFile
              (initial graph_no_husband) = Returns v s'
    /\ exists p f,
         v = VDict [("id", VStr "Error US02"); ("name", VStr "birth_before_marriage");
                    ("output", VDict [("passed", VList p); ("failed", VList f)])].
Proof.
  do 2 eexists. split.
  - vm_compute. reflexivity.
  - apply (decorated_story_result (ymd 2016 5 20) "20 MAY 2016" (fun _ => ret VNone)
             "Error US02" "birth_before_marriage" birth_before_marriage
             GedcomFile (initial graph_no_husband)
             (mk_state graph_no_husband [] []
                [mk_log (VFormat "Individual {0} born {1} before {2} marriage ({3}) on {4}"
                           [VIndi "@I1@"; VDate (mk_Date (ymd 1975 3 2) 4 "2 MAR 1975" "BIRT");
                            VAttr (VIndi "@I1@") "pronoun"; VStr "@F1@";
                            VDate (mk_Date (ymd 2000 1 1) 9 "1 JAN 2000" "MARR")])
                        (VStr "Error US02") "Passed" (VStr "birth_before_marriage")])).
    + right. left. reflexivity.
    + vm_compute. reflexivity.
Defined.

(** Any other value than the [gedcom.File] object is refused with a
    [TypeError], before the story function is entered. *)
Lemma story_raises_TypeError (id_ name : string) (func : argument -> M value)
      (v : value) (s : state) :
  story id_ name func (NotAFile v) s
  = Raises (TypeError "Story function must be provided a gedcom file object.") s.
Proof. reflexivity. Qed.

(** C7: [marriage_before_death] reads [fam.husband.has("death_date")]
    without the presence check its own [out] dictionary makes two lines
    before: on a family with a marriage date, a wife and no husband the
    story raises [AttributeError] instead of returning a result. *)
Theorem marriage_before_death_raises_without_husband :
  well_formed graph_no_husband = true
  /\ story "Error US05" "marriage_before_death" marriage_before_death GedcomFile
           (initial graph_no_husband)
     = Raises (AttributeError "has") (initial graph_no_husband).
Proof. split; vm_compute; reflexivity. Qed.

(** The same access without a check is in US06: a family with a divorce
    date and a dead husband but no wife raises there. *)
Example divorce_before_death_raises_without_wife :
  well_formed graph_no_wife = true
  /\ story "Error US06" "divorce_before_death" divorce_before_death GedcomFile
           (initial graph_no_wife)
     = Raises (AttributeError "death_date") (initial graph_no_wife).
Proof. split; vm_compute; reflexivity. Qed.

(** Spouses without death dates are no reason to raise: the family is
    skipped. *)
Example marriage_before_death_skips_living_spouses :
  marriage_before_death GedcomFile (initial graph_married_at_14)
  = Returns (VDict [("passed", VList []); ("failed", VList [])]) (initial graph_married_at_14).
Proof. vm_compute. reflexivity. Qed.

(** ** US06: divorce before death *)

(** C3: a divorce on 1 JAN 2000 precedes both deaths (2010 and 2011), yet
    the family is appended to [failed]: the story passes a spouse when
    the death precedes the divorce. *)
Theorem divorce_before_death_fails_divorce_first :
  exists out s',
    divorce_before_death GedcomFile (initial graph_divorce_then_deaths)
    = Returns (VDict [("passed", VList []); ("failed", VList [VDict out])]) s'
    /\ dict_get out "family_xref" = Some (VStr "@F1@")
    /\ ltb (ymd 2000 1 1) (ymd 2010 1 1) = true
    /\ ltb (ymd 2000 1 1) (ymd 2011 1 1) = true.
Proof. do 2 eexists. repeat split; vm_compute; reflexivity. Qed.

(** ** US09: birth before death of parents *)

(** C2: the father dies on 1 JAN 1980 and the child is born 60 days
    later, before the mother's death in 2000, so both clauses of the rule
    hold; the story compares with the parents' birth dates instead and
    appends the child to [failed]. *)
Theorem birth_before_death_of_parents_fails_posthumous_child :
  exists out s',
    birth_before_death_of_parents GedcomFile (initial graph_posthumous_child)
    = Returns (VDict [("passed", VList []); ("failed", VList [VDict out])]) s'
    /\ dict_get out "child"
       = Some (VDict [("xref", VStr "@I3@");
                      ("birth_date", VDict [("line_value", VStr "1 MAR 1980");
                                            ("line_number", VInt 15)])])
    /\ ltb (ymd 1980 3 1) (ymd 2000 1 1) = true
    /\ sub_days (ymd 1980 3 1) (ymd 1980 1 1) / 30 = 2.
Proof. do 2 eexists. repeat split; vm_compute; reflexivity. Qed.


(** ** US10: marriage after 14 *)

(** C9: the wife marries on her fourteenth birthday and the husband at
    20; the story asks for more than 14 years and appends the family to
    [failed]. *)
Theorem marriage_after_14_fails_at_exactly_14 :
  exists out s',
    marriage_after_14 GedcomFile (initial graph_married_at_14)
    = Returns (VDict [("passed", VList []); ("failed", VList [VDict out])]) s'
    /\ dict_get out "wife"
       = Some (VDict [("xref", VStr "@I2@");
                      ("birth_date", VDict [("line_value", VStr "1 JAN 1986");
                                            ("line_number", VInt 7)]);
                      ("marriage_age", VInt 14)])
    /\ dict_get out "husband"
       = Some (VDict [("xref", VStr "@I1@");
                      ("birth_date", VDict [("line_value", VStr "1 JAN 1980");
                                            ("line_number", VInt 3)]);
                      ("marriage_age", VInt 20)]).
Proof. do 2 eexists. repeat split; vm_compute; reflexivity. Qed.

(** ** US11: the overlap of two marriage intervals *)

Lemma eqb_sym (a b : datetime) : eqb a b = eqb b a.
Proof.
  unfold eqb.
  rewrite (Z.eqb_sym (year a)), (Z.eqb_sym (month a)), (Z.eqb_sym (day a)),
          (Z.eqb_sym (time a)).
  reflexivity.
Qed.

(** [end >= start] and [start <= end] agree, also on an open end. *)
Lemma end_ge_is_le (e : interval_end) (start : datetime) :
  end_ge_datetime e start = datetime_le_end start e.
Proof.
  destruct e as [d |]; simpl; [| reflexivity].
  unfold leb. rewrite (eqb_sym d start). reflexivity.
Qed.

(** C5: the overlap test of the no-bigamy story gives the same answer for
    the intervals taken in either order, for dated and for open ends. *)
Theorem overlap_symmetric (start1 : datetime) (end1 : interval_end)
                          (start2 : datetime) (end2 : interval_end) :
  overlap start1 end1 start2 end2 = overlap start2 end2 start1 end1.
Proof.
  unfold overlap.
  rewrite !end_ge_is_le.
  apply andb_comm.
Qed.

(** The story computes [overlap] on the [dt] of the two dictionary
    objects it was handed, and leaves the state as it is. *)
Lemma overlap_check_marriage_end (d1 d2 : pydict) (start1 start2 : Date)
      (e1 e2 : interval_end) (l1 l2 : nat) (s : state) :
  nth_error (store s) l1 = Some d1 ->
  nth_error (store s) l2 = Some d2 ->
  dict_get d1 "dt" = Some (VEnd e1) ->
  dict_get d2 "dt" = Some (VEnd e2) ->
  overlap_check start1 (VRef l1) start2 (VRef l2) s
  = Returns (overlap (dt start1) e1 (dt start2) e2) s.
Proof.
  intros H1 H2 D1 D2.
  unfold overlap_check, and_, getitem, items, bind, as_end, overlap, ret.
  rewrite H2, D2.
  destruct (datetime_le_end (dt start1) e2); simpl; [| reflexivity].
  rewrite H1, D1. reflexivity.
Qed.

(** One man in two marriages, with an accessor that makes a new record of
    an open end on each access: the pair is appended to [failed], with
    the two records as objects of the store, their [dt] popped. *)
Example no_bigamy_two_open_marriages :
  exists out,
    no_bigamy open_marriage_end GedcomFile (initial graph_two_marriages)
    = Returns (VDict [("passed", VList []); ("failed", VList [VDict out])])
              (mk_state graph_two_marriages
                 [ [("story_dict", VDict [("line_value", VNone); ("line_number", VNone)]);
                    ("reason", VStr "open")];
                   [("story_dict", VDict [("line_value", VNone); ("line_number", VNone)]);
                    ("reason", VStr "open")] ]
                 [] [])
    /\ dict_get out "individual" = Some (VDict [("xref", VStr "@I1@")]).
Proof. eexists. split; vm_compute; reflexivity. Qed.

(** ** US13: the spacing of siblings *)

Lemma In_fold_round {X : Type} (classify : X -> option (bool * value))
      (b : bool) (v : value) :
  forall (l : list X) (r : results),
    In v (side b (fold_left (round classify) l r))
    <-> In v (side b r) \/ exists x, In x l /\ classify x = Some (b, v).
Proof.
  induction l as [| x t IH]; intros r; simpl.
  - split; [intros H; left; exact H | intros [H | (x & [] & _)]; exact H].
  - rewrite IH. unfold round at 1.
    destruct (classify x) as [[ok out] |] eqn:Hx.
    + rewrite In_side_append_by. split.
      * intros [[H | [-> ->]] | (y & Hy & Hc)].
        -- left; exact H.
        -- right. exists x. split; [left; reflexivity | exact Hx].
        -- right. exists y. split; [right; exact Hy | exact Hc].
      * intros [H | (y & [<- | Hy] & Hc)].
        -- left; left; exact H.
        -- rewrite Hx in Hc. injection Hc as -> ->. left; right; split; reflexivity.
        -- right. exists y. split; [exact Hy | exact Hc].
    + split.
      * intros [H | (y & Hy & Hc)]; [left; exact H |].
        right. exists y. split; [right; exact Hy | exact Hc].
      * intros [H | (y & [<- | Hy] & Hc)]; [left; exact H | congruence |].
        right. exists y. split; [exact Hy | exact Hc].
Qed.

(** The same for a loop within a loop. *)
Lemma In_fold_fold_round {Y X : Type} (classify : Y -> X -> option (bool * value))
      (inner : Y -> list X) (b : bool) (v : value) :
  forall (ys : list Y) (r : results),
    In v (side b (fold_left (fun r y => fold_left (round (classify y)) (inner y) r) ys r))
    <-> In v (side b r)
        \/ exists y x, In y ys /\ In x (inner y) /\ classify y x = Some (b, v).
Proof.
  induction ys as [| y t IH]; intros r; simpl.
  - split; [intros H; left; exact H | intros [H | (y & x & [] & _)]; exact H].
  - rewrite IH, In_fold_round. split.
    + intros [[H | (x & Hx & Hc)] | (y' & x & Hy & Hx & Hc)].
      * left; exact H.
      * right. exists y, x. repeat split; [left; reflexivity | exact Hx | exact Hc].
      * right. exists y', x. repeat split; [right; exact Hy | exact Hx | exact Hc].
    + intros [H | (y' & x & [<- | Hy] & Hx & Hc)].
      * left; left; exact H.
      * left; right. exists x. split; [exact Hx | exact Hc].
      * right. exists y', x. repeat split; [exact Hy | exact Hx | exact Hc].
Qed.

Lemma sibling_pairs_born (g : File) (fam : Family) (a b : Individual) :
  In (a, b) (sibling_pairs g fam) ->
  has (birth_date a) = true /\ has (birth_date b) = true.
Proof.
  unfold sibling_pairs. intros H. apply In_combinations2 in H.
  destruct H as [Ha Hb].
  apply filter_In in Ha. apply filter_In in Hb. tauto.
Qed.

(** US13 returns on every record graph, leaves the state as it is, and
    its evidence is [spacing_results]. *)
Lemma siblings_spacing_run (s : state) :
  siblings_spacing GedcomFile s = Returns (results_value (spacing_results (graph s))) s.
Proof.
  unfold siblings_spacing, spacing_results.
  rewrite bind_File_of.
  erewrite bind_run; [reflexivity |].
  apply (for_each_fold _ (fun r fam => fold_left (spacing_round (graph s) fam)
                                                 (sibling_pairs (graph s) fam) r)).
  intros fam r s1 _.
  fold (sibling_pairs (graph s) fam).
  destruct (2 <=? List.length (filter (fun c => has (birth_date c)) (children (graph s) fam)))%nat
    eqn:Hlen.
  - apply for_each_fold.
    intros [a b] r1 s2 Hin.
    apply sibling_pairs_born in Hin. destruct Hin as [Ha Hb].
    unfold spacing_round, round, spacing_verdict, spacing_ok. cbn [fst snd].
    destruct (birth_date a) as [birth_a |]; [| discriminate Ha].
    destruct (birth_date b) as [birth_b |]; [| discriminate Hb].
    reflexivity.
  - unfold sibling_pairs. rewrite (combinations2_short _ Hlen). reflexivity.
Qed.

(** Evidence of US13 carries its day count. *)
Lemma spacing_verdict_days (g : File) (fam : Family) (pair : Individual * Individual)
      (b : bool) (fam' : Family) (a' b' : Individual) (birth_a birth_b : Date) (days : Z) :
  spacing_verdict g fam pair
  = Some (b, VDict (spacing_out g fam' a' birth_a b' birth_b days)) ->
  b = spacing_ok days.
Proof.
  unfold spacing_verdict.
  destruct (birth_date (fst pair)) as [ba |]; [| discriminate].
  destruct (birth_date (snd pair)) as [bb |]; [| discriminate].
  unfold spacing_out. intros H. injection H. intros; subst. reflexivity.
Qed.

(** C4, as stated, fails: two siblings born exactly 2 days apart are
    appended to [failed]. *)
Lemma siblings_two_days_apart_fail :
  exists out s',
    siblings_spacing GedcomFile (initial (graph_siblings 1 3 "3 JAN 2000"))
    = Returns (VDict [("passed", VList []); ("failed", VList [VDict out])]) s'
    /\ dict_get out "days_apart" = Some (VInt 2).
Proof. do 2 eexists. split; vm_compute; reflexivity. Qed.

(** C4, amended: for every family and every pair of its children that
    both have birth dates, US13 returns, and the pair is in [passed] and
    not in [failed] when the birth dates are less than 2 days or exactly
    241 days apart, and in [failed] and not in [passed] when they are
    exactly 2, 3 or 240 days apart. *)
Theorem siblings_spacing_boundaries (s : state) (fam : Family) (sib_a sib_b : Individual)
        (birth_a birth_b : Date) :
  In fam (families (graph s)) ->
  In (sib_a, sib_b) (sibling_pairs (graph s) fam) ->
  birth_date sib_a = Some birth_a ->
  birth_date sib_b = Some birth_b ->
  let days := days_between (dt birth_a) (dt birth_b) in
  let out := VDict (spacing_out (graph s) fam sib_a birth_a sib_b birth_b days) in
  exists r,
    siblings_spacing GedcomFile s = Returns (results_value r) s /\
    ((days < 2 \/ days = 241) -> In out (passed r) /\ ~ In out (failed r)) /\
    ((days = 2 \/ days = 3 \/ days = 240) -> In out (failed r) /\ ~ In out (passed r)).
Proof.
  intros Hfam Hpair Ha Hb days out.
  exists (spacing_results (graph s)).
  split; [apply siblings_spacing_run |].
  assert (Hmine : spacing_verdict (graph s) fam (sib_a, sib_b) = Some (spacing_ok days, out)).
  { unfold spacing_verdict. cbn [fst snd]. rewrite Ha, Hb. reflexivity. }
  assert (Hin : In out (side (spacing_ok days) (spacing_results (graph s)))).
  { unfold spacing_results, spacing_round. apply In_fold_fold_round.
    right. exists fam, (sib_a, sib_b). repeat split; assumption. }
  assert (Hout : ~ In out (side (negb (spacing_ok days)) (spacing_results (graph s)))).
  { unfold spacing_results, spacing_round. rewrite In_fold_fold_round.
    intros [H | (fam' & pair & _ & _ & Hv)].
    - destruct (negb (spacing_ok days)); exact H.
    - apply spacing_verdict_days in Hv. destruct (spacing_ok days); discriminate Hv. }
  split; intros Hdays.
  - assert (Hok : spacing_ok days = true).
    { unfold spacing_ok. destruct Hdays as [Hlt | ->]; [| reflexivity].
      apply orb_true_iff. left. apply Z.ltb_lt. exact Hlt. }
    rewrite Hok in Hin, Hout. simpl in Hin, Hout. split; assumption.
  - assert (Hok : spacing_ok days = false).
    { destruct Hdays as [-> | [-> | ->]]; reflexivity. }
    rewrite Hok in Hin, Hout. simpl in Hin, Hout. split; assumption.
Qed.

Lemma siblings_spacing_boundaries_witness :
  let s := initial (graph_siblings 8 29 "29 AUG 2000") in
  let fam := mk_Family "@F1@" None None ["@I1@"; "@I2@"] None None in
  let sib_a :=
    mk_Individual "@I1@" "M" (on_date 2000 1 1 3 "1 JAN 2000" "BIRT") None ["@F1@"] [] in
  let sib_b :=
    mk_Individual "@I2@" "F" (on_date 2000 8 29 7 "29 AUG 2000" "BIRT") None ["@F1@"] [] in
  let birth_a := mk_Date (ymd 2000 1 1) 3 "1 JAN 2000" "BIRT" in
  let birth_b := mk_Date (ymd 2000 8 29) 7 "29 AUG 2000" "BIRT" in
  let out := VDict (spacing_out (graph s) fam sib_a birth_a sib_b birth_b 241) in
  exists r,
    siblings_spacing GedcomFile s = Returns (results_value r) s
    /\ In out (passed r) /\ ~ In out (failed r).
Proof.
  intros s fam sib_a sib_b birth_a birth_b out.
  destruct (siblings_spacing_boundaries s fam sib_a sib_b birth_a birth_b)
    as (r & Hrun & Hpass & _).
  - left. reflexivity.
  - left. reflexivity.
  - reflexivity.
  - reflexivity.
  - exists r. split; [exact Hrun |].
    apply Hpass. right. vm_compute. reflexivity.
Defined.

(** ** US18: siblings should not marry *)

(** C10: the only child of a family has a spouse; the loop over the
    siblings binds nothing, and the story raises on reading [msg_out]. *)
Theorem siblings_should_not_marry_raises_on_only_child :
  well_formed graph_only_child_married = true
  /\ siblings_should_not_marry GedcomFile (initial graph_only_child_married)
     = Raises (UnboundLocalError "msg_out") (initial graph_only_child_married).
Proof. split; vm_compute; reflexivity. Qed.

(** ** Missing data: what every story requires of what it reports *)





























(** * Further properties of the stories *)

(** ** Loops that neither raise nor touch the state *)

Lemma fold_round_verdicts {X : Type} (classify : X -> option (bool * value)) :
  forall (l : list X) (r : results),
    fold_left (round classify) l r
    = mk_results (passed r ++ evidence_of true classify l)
                 (failed r ++ evidence_of false classify l).
Proof.
  induction l as [| x t IH]; intros r; simpl.
  - rewrite !app_nil_r. destruct r; reflexivity.
  - rewrite IH. unfold round.
    destruct (classify x) as [[[|] out] |]; simpl; rewrite <- ?app_assoc; reflexivity.
Qed.

Lemma evidence_of_filter {X : Type} (b : bool) (classify : X -> option (bool * value))
      (keep : X -> bool) :
  (forall x b' v, classify x = Some (b', v) -> keep x = true) ->
  forall l, evidence_of b classify (filter keep l) = evidence_of b classify l.
Proof.
  intros Hkeep. induction l as [| x t IH]; simpl; [reflexivity |].
  destruct (keep x) eqn:Hx; simpl; rewrite IH; [reflexivity |].
  destruct (classify x) as [[b' v] |] eqn:Hc; [| reflexivity].
  rewrite (Hkeep x b' v Hc) in Hx. discriminate Hx.
Qed.

Lemma evidence_of_app {X : Type} (b : bool) (classify : X -> option (bool * value))
      (l1 l2 : list X) :
  evidence_of b classify (l1 ++ l2) = evidence_of b classify l1 ++ evidence_of b classify l2.
Proof. unfold evidence_of. apply flat_map_app. Qed.

Lemma evidence_of_pairs {Y X : Type} (b : bool) (classify : Y -> X -> option (bool * value))
      (y : Y) (l : list X) :
  evidence_of b (fun p => classify (fst p) (snd p)) (map (pair y) l)
  = evidence_of b (classify y) l.
Proof. induction l as [| x t IH]; simpl; [reflexivity | rewrite IH; reflexivity]. Qed.

(** A loop within a loop is a loop over the pairs. *)
Lemma fold_fold_round_verdicts {Y X : Type} (classify : Y -> X -> option (bool * value))
      (inner : Y -> list X) :
  forall (ys : list Y) (r : results),
    fold_left (fun r y => fold_left (round (classify y)) (inner y) r) ys r
    = mk_results
        (passed r ++ evidence_of true (fun p => classify (fst p) (snd p)) (pairs_of inner ys))
        (failed r ++ evidence_of false (fun p => classify (fst p) (snd p)) (pairs_of inner ys)).
Proof.
  induction ys as [| y t IH]; intros r; simpl.
  - rewrite !app_nil_r. destruct r; reflexivity.
  - rewrite IH, fold_round_verdicts. simpl.
    unfold pairs_of in *. rewrite !evidence_of_app, !evidence_of_pairs, <- !app_assoc.
    reflexivity.
Qed.

(** A story with one loop over a list, each round a verdict. *)
Lemma story_loop_verdicts {X : Type} (classify : X -> option (bool * value))
      (body : results -> X -> M results) (l : list X) (s : state) :
  (forall x r s1, In x l -> body r x s1 = Returns (round classify r x) s1) ->
  bind (for_each l body new_results) (fun r => ret (results_value r)) s
  = Returns (results_value (verdicts classify l)) s.
Proof.
  intros Hbody. erewrite bind_run; [| apply for_each_fold; exact Hbody].
  rewrite fold_round_verdicts. reflexivity.
Qed.

(** The same over a filtered list, when what the filter drops has no
    verdict. *)
Lemma story_filter_loop_verdicts {X : Type} (keep : X -> bool)
      (classify : X -> option (bool * value))
      (body : results -> X -> M results) (l : list X) (s : state) :
  (forall x r s1, In x l -> keep x = true -> body r x s1 = Returns (round classify r x) s1) ->
  (forall x b v, classify x = Some (b, v) -> keep x = true) ->
  bind (for_each (filter keep l) body new_results) (fun r => ret (results_value r)) s
  = Returns (results_value (verdicts classify l)) s.
Proof.
  intros Hbody Hkeep.
  rewrite (story_loop_verdicts classify).
  - unfold verdicts. rewrite !(evidence_of_filter _ _ keep Hkeep). reflexivity.
  - intros x r s1 Hx. apply filter_In in Hx. destruct Hx as [Hx Hk].
    exact (Hbody x r s1 Hx Hk).
Qed.

(** One round against its verdict: every test decided, both sides run. *)
Ltac decide_round :=
  cbv [bind attr ret and_ age wife_marriage_age husband_marriage_age marriage_age];
  repeat match goal with
         | |- context [if ?c then _ else _] => destruct c eqn:?
         end;
  try discriminate; try reflexivity.

(** ** US01: dates before the current date *)

(** X4: US01 returns on every record graph and leaves the state as it is.
    Its [passed] list is, in the order of the [DATE] lines, the evidence
    of the dates before [NOW], and its [failed] list that of the others,
    a date equal to [NOW] among them. *)
Theorem dates_before_current_date_verdicts (NOW : datetime) (NOW_STRING : string)
        (s : state) :
  dates_before_current_date NOW NOW_STRING GedcomFile s
  = Returns (results_value
               (verdicts (dates_before_current_date_verdict NOW NOW_STRING)
                         (date_lines (graph s)))) s.
Proof.
  unfold dates_before_current_date. rewrite bind_File_of.
  apply story_loop_verdicts.
  intros date r s1 _. unfold round, dates_before_current_date_verdict. decide_round.
Qed.

(** ** US03: birth before death *)

(** X6: US03 returns on every record graph and leaves the state as it is.
    Its [passed] list is, in the order of the individuals, the evidence of
    those with both dates whose birth is before the death, and its
    [failed] list that of those whose birth is not before the death (the
    same day included); an individual without one of the dates has no
    entry. *)
Theorem birth_before_death_verdicts (s : state) :
  birth_before_death GedcomFile s
  = Returns (results_value (verdicts birth_before_death_verdict (individuals (graph s)))) s.
Proof.
  unfold birth_before_death. rewrite bind_File_of.
  apply story_filter_loop_verdicts.
  - intros indi r s1 _ Hkeep. apply andb_true_iff in Hkeep.
    unfold round, birth_before_death_verdict.
    destruct (birth_date indi) as [birth |]; [| destruct Hkeep; discriminate].
    destruct (death_date indi) as [death |]; [| destruct Hkeep; discriminate].
    decide_round.
  - intros indi b v. unfold birth_before_death_verdict.
    destruct (birth_date indi); [| discriminate].
    destruct (death_date indi); [| discriminate]. reflexivity.
Qed.

(** ** US04: marriage before divorce *)

(** X7: US04 returns on every record graph and leaves the state as it is.
    Its [passed] list is the evidence of the families with both dates
    whose marriage is before the divorce, its [failed] list that of those
    whose marriage is not before the divorce; a missing husband or wife
    is reported as [None] and does not make it raise. *)
Theorem marriage_before_divorce_verdicts (s : state) :
  marriage_before_divorce GedcomFile s
  = Returns (results_value
               (verdicts (marriage_before_divorce_verdict (graph s)) (families (graph s)))) s.
Proof.
  unfold marriage_before_divorce. rewrite bind_File_of.
  apply story_filter_loop_verdicts.
  - intros fam r s1 _ Hkeep. apply andb_true_iff in Hkeep.
    unfold round, marriage_before_divorce_verdict.
    destruct (marriage_date fam) as [marr |]; [| destruct Hkeep; discriminate].
    destruct (divorce_date fam) as [div |]; [| destruct Hkeep; discriminate].
    decide_round.
  - intros fam b v. unfold marriage_before_divorce_verdict.
    destruct (marriage_date fam); [| discriminate].
    destruct (divorce_date fam); [| discriminate]. reflexivity.
Qed.

(** ** US07: less than 150 years old *)

(** X10: US07 returns on every record graph and leaves the state as it is.
    Every individual with a birth date has one entry, in [passed] when
    the age (at death, or at [NOW] for the living) is below 150 and in
    [failed] from 150 on; an individual without a birth date has none. *)
Theorem less_then_150_years_old_verdicts (NOW : datetime) (NOW_STRING : string)
        (s : state) :
  less_then_150_years_old NOW NOW_STRING GedcomFile s
  = Returns (results_value
               (verdicts (less_then_150_years_old_verdict NOW NOW_STRING)
                         (individuals (graph s)))) s.
Proof.
  unfold less_then_150_years_old. rewrite bind_File_of.
  apply story_filter_loop_verdicts.
  - intros indi r s1 _ Hkeep.
    unfold round, less_then_150_years_old_verdict, age_of.
    destruct (birth_date indi) as [birth |] eqn:Hbirth; [| discriminate].
    cbv [bind attr ret age]. rewrite Hbirth.
    destruct (death_date indi) as [death |]; cbv [bind attr ret];
      destruct (_ <? 150); reflexivity.
  - intros indi b v. unfold less_then_150_years_old_verdict.
    destruct (birth_date indi); [reflexivity | discriminate].
Qed.

(** ** US10: marriage after 14 *)

(** X13: US10 returns on every record graph and leaves the state as it is.
    Every family with a marriage date, a husband and a wife who both have
    birth dates has one entry, in [passed] when both were more than 14
    calendar years old at the marriage and in [failed] otherwise; every
    other family has none. *)
Theorem marriage_after_14_verdicts (s : state) :
  marriage_after_14 GedcomFile s
  = Returns (results_value
               (verdicts (marriage_after_14_verdict (graph s)) (families (graph s)))) s.
Proof.
  unfold marriage_after_14. rewrite bind_File_of.
  apply story_loop_verdicts.
  intros fam r s1 _.
  unfold round, marriage_after_14_verdict, wife_marriage_age, husband_marriage_age,
    marriage_age, lacks_birth_date.
  destruct (marriage_date fam) as [marr |];
    destruct (husband (graph s) fam) as [h |];
    destruct (wife (graph s) fam) as [w |]; try reflexivity;
    try (destruct (birth_date h) as [hb |]; reflexivity).
  destruct (birth_date h) as [hb |] eqn:Hhb;
    destruct (birth_date w) as [wb |] eqn:Hwb; try reflexivity.
  cbv [bind attr ret and_ has negb]. rewrite Hhb, Hwb.
  destruct (14 <? years_between (dt marr) (dt wb));
    destruct (14 <? years_between (dt marr) (dt hb)); reflexivity.
Qed.

(** ** Loops within loops *)

Lemma fold_round_None {X : Type} (classify : X -> option (bool * value)) :
  forall (l : list X) (r : results),
    (forall x, In x l -> classify x = None) ->
    fold_left (round classify) l r = r.
Proof.
  induction l as [| x t IH]; intros r Hnone; simpl; [reflexivity |].
  unfold round at 2. rewrite (Hnone x (or_introl eq_refl)).
  apply IH. intros y Hy. apply Hnone. right. exact Hy.
Qed.

Lemma fold_round_filter {X : Type} (classify : X -> option (bool * value))
      (keep : X -> bool) :
  (forall x b v, classify x = Some (b, v) -> keep x = true) ->
  forall (l : list X) (r : results),
    fold_left (round classify) (filter keep l) r = fold_left (round classify) l r.
Proof.
  intros Hkeep. induction l as [| x t IH]; intros r; simpl; [reflexivity |].
  destruct (keep x) eqn:Hx; simpl; [apply IH |].
  rewrite IH. unfold round at 3.
  destruct (classify x) as [[b v] |] eqn:Hc; [| reflexivity].
  rewrite (Hkeep x b v Hc) in Hx. discriminate Hx.
Qed.

Lemma fold_left_filter_skip {Y R : Type} (f : R -> Y -> R) (keep : Y -> bool) :
  (forall y r, keep y = false -> f r y = r) ->
  forall (l : list Y) (r : R), fold_left f (filter keep l) r = fold_left f l r.
Proof.
  intros Hskip. induction l as [| y t IH]; intros r; simpl; [reflexivity |].
  destruct (keep y) eqn:Hy; simpl; [apply IH |].
  rewrite (Hskip y r Hy). apply IH.
Qed.

(** A story with a loop within a loop, each inner round a verdict. *)
Lemma story_nested_verdicts {Y X : Type} (classify : Y -> X -> option (bool * value))
      (inner : Y -> list X) (body : results -> Y -> M results) (ys : list Y) (s : state) :
  (forall y r s1, In y ys ->
     body r y s1 = Returns (fold_left (round (classify y)) (inner y) r) s1) ->
  bind (for_each ys body new_results) (fun r => ret (results_value r)) s
  = Returns (results_value (verdicts (fun p => classify (fst p) (snd p))
                                     (pairs_of inner ys))) s.
Proof.
  intros Hbody.
  erewrite bind_run;
    [| apply (for_each_fold body
                (fun r y => fold_left (round (classify y)) (inner y) r)); exact Hbody].
  rewrite fold_fold_round_verdicts. reflexivity.
Qed.

(** The same with both loops filtered, when what the filters drop has no
    verdict. *)
Lemma story_filter_nested_verdicts {Y X : Type} (classify : Y -> X -> option (bool * value))
      (keepY : Y -> bool) (keepX : Y -> X -> bool) (inner : Y -> list X)
      (body : Y -> results -> X -> M results) (ys : list Y) (s : state) :
  (forall y x r s1, keepY y = true -> keepX y x = true ->
     body y r x s1 = Returns (round (classify y) r x) s1) ->
  (forall y x b v, classify y x = Some (b, v) -> keepY y = true /\ keepX y x = true) ->
  bind (for_each (filter keepY ys)
          (fun r y => for_each (filter (keepX y) (inner y)) (body y) r) new_results)
       (fun r => ret (results_value r)) s
  = Returns (results_value (verdicts (fun p => classify (fst p) (snd p))
                                     (pairs_of inner ys))) s.
Proof.
  intros Hbody Hkeep.
  erewrite bind_run.
  2:{ apply (for_each_fold _ (fun r y => fold_left (round (classify y)) (inner y) r)).
      intros y r s1 Hy. apply filter_In in Hy. destruct Hy as [_ Hy].
      rewrite (for_each_fold (body y) (round (classify y))).
      - rewrite fold_round_filter; [reflexivity |].
        intros x b v Hc. apply (Hkeep y x b v Hc).
      - intros x r1 s2 Hx. apply filter_In in Hx. destruct Hx as [_ Hx].
        apply Hbody; assumption. }
  rewrite fold_left_filter_skip.
  - rewrite fold_fold_round_verdicts. reflexivity.
  - intros y r Hy. apply fold_round_None. intros x _.
    destruct (classify y x) as [[b v] |] eqn:Hc; [| reflexivity].
    destruct (Hkeep y x b v Hc) as [Hy' _]. rewrite Hy' in Hy. discriminate Hy.
Qed.

(** ** US02: birth before marriage *)

(** X5: US02 returns on every record graph and leaves the state as it is.
    It has one entry for every individual with a birth date and every
    family with a marriage date of which the individual is a spouse, in
    the order of the two loops: in [passed] when the birth is before the
    marriage, in [failed] when it is not (the same day included). *)
Theorem birth_before_marriage_verdicts (s : state) :
  birth_before_marriage GedcomFile s
  = Returns (results_value
               (verdicts (fun p => birth_before_marriage_verdict (fst p) (snd p))
                         (pairs_of (families_FAMS (graph s)) (individuals (graph s))))) s.
Proof.
  unfold birth_before_marriage. rewrite bind_File_of.
  apply (story_filter_nested_verdicts birth_before_marriage_verdict
           (fun i => has (birth_date i)) (fun _ fam => has (marriage_date fam))).
  - intros indi fam r s1 Hindi Hfam. unfold round, birth_before_marriage_verdict.
    destruct (birth_date indi) as [birth |]; [| discriminate].
    destruct (marriage_date fam) as [marr |]; [| discriminate].
    decide_round.
  - intros indi fam b v. unfold birth_before_marriage_verdict.
    destruct (birth_date indi); [| discriminate].
    destruct (marriage_date fam); [| discriminate]. split; reflexivity.
Qed.

(** ** US08: birth before marriage of parents *)

(** X11: US08 returns on every record graph and leaves the state as it is.
    It has one entry for every family with a marriage date and every
    child of it with a birth date: in [passed] when the marriage is
    before the birth and, if the family has a divorce date, the birth is
    before the divorce; in [failed] otherwise.  A missing father or
    mother is reported as [None]. *)
Theorem birth_before_marriage_of_parents_verdicts (s : state) :
  birth_before_marriage_of_parents GedcomFile s
  = Returns (results_value
               (verdicts (fun p => birth_before_marriage_of_parents_verdict
                                     (graph s) (fst p) (snd p))
                         (pairs_of (children (graph s)) (families (graph s))))) s.
Proof.
  unfold birth_before_marriage_of_parents. rewrite bind_File_of.
  apply (story_filter_nested_verdicts (birth_before_marriage_of_parents_verdict (graph s))
           (fun f => has (marriage_date f)) (fun _ c => has (birth_date c))).
  - intros fam child r s1 Hfam Hchild.
    unfold round, birth_before_marriage_of_parents_verdict.
    destruct (marriage_date fam) as [marr |]; [| discriminate].
    destruct (birth_date child) as [birth |]; [| discriminate].
    destruct (divorce_date fam) as [div |]; reflexivity.
  - intros fam child b v. unfold birth_before_marriage_of_parents_verdict.
    destruct (marriage_date fam); [| discriminate].
    destruct (birth_date child); [| discriminate]. split; reflexivity.
Qed.

(** ** US12: parents not too old *)

(** X16: US12 returns on every record graph and leaves the state as it is.
    It has one entry for every child with a birth date of every family
    that has a marriage date and a husband and a wife with birth dates:
    in [passed] when the mother is less than 60 and the father less than
    80 calendar years older than the child, in [failed] otherwise. *)
Theorem parents_not_too_old_verdicts (s : state) :
  parents_not_too_old GedcomFile s
  = Returns (results_value
               (verdicts (fun p => parents_not_too_old_verdict (graph s) (fst p) (snd p))
                         (pairs_of (children (graph s)) (families (graph s))))) s.
Proof.
  unfold parents_not_too_old. rewrite bind_File_of.
  apply (story_nested_verdicts (parents_not_too_old_verdict (graph s))).
  intros fam r s1 _.
  assert (Hskip :
            (forall child, parents_not_too_old_verdict (graph s) fam child = None) ->
            Returns r s1
            = Returns (fold_left (round (parents_not_too_old_verdict (graph s) fam))
                                 (children (graph s) fam) r) s1).
  { intros Hnone. rewrite fold_round_None; [reflexivity |]. intros x _. apply Hnone. }
  unfold lacks_birth_date.
  destruct (marriage_date fam) as [marr |] eqn:Hmarr; simpl;
    [| apply Hskip; intros child; unfold parents_not_too_old_verdict;
       rewrite Hmarr; reflexivity].
  destruct (husband (graph s) fam) as [h |] eqn:Hh;
    [| apply Hskip; intros child; unfold parents_not_too_old_verdict;
       rewrite Hmarr, Hh; reflexivity].
  destruct (birth_date h) as [hb |] eqn:Hhb; simpl;
    [| apply Hskip; intros child; unfold parents_not_too_old_verdict;
       rewrite Hmarr, Hh, Hhb; destruct (wife (graph s) fam); reflexivity].
  destruct (wife (graph s) fam) as [w |] eqn:Hw;
    [| apply Hskip; intros child; unfold parents_not_too_old_verdict;
       rewrite Hmarr, Hh, Hw; reflexivity].
  destruct (birth_date w) as [wb |] eqn:Hwb; simpl;
    [| apply Hskip; intros child; unfold parents_not_too_old_verdict;
       rewrite Hmarr, Hh, Hw, Hhb, Hwb; reflexivity].
  apply for_each_fold. intros child r1 s2 _.
  unfold round, parents_not_too_old_verdict. rewrite Hmarr, Hh, Hw, Hhb, Hwb.
  destruct (birth_date child) as [birth |]; simpl; [| reflexivity].
  cbv [bind attr ret]. rewrite Hhb, Hwb. reflexivity.
Qed.

(** ** Loops that stop at the first exception *)

(** A loop whose rounds either raise or go on without touching the state
    raises the exception of its first raising round. *)
Lemma for_each_first_error {X R : Type} (error : X -> option exn) (f : R -> X -> R)
      (body : R -> X -> M R) :
  forall (l : list X),
    (forall x r s, In x l -> error x = None -> body r x s = Returns (f r x) s) ->
    (forall x e r s, In x l -> error x = Some e -> body r x s = Raises e s) ->
    forall r s,
      for_each l body r s = match first_error error l with
                            | Some e => Raises e s
                            | None => Returns (fold_left f l r) s
                            end.
Proof.
  induction l as [| x t IH]; intros Hgo Hstop r s; simpl; [reflexivity |].
  unfold bind. destruct (error x) as [e |] eqn:Hx.
  - rewrite (Hstop x e r s (or_introl eq_refl) Hx). reflexivity.
  - rewrite (Hgo x r s (or_introl eq_refl) Hx). apply IH.
    + intros y r1 s1 Hy. apply Hgo. right. exact Hy.
    + intros y e r1 s1 Hy. apply Hstop. right. exact Hy.
Qed.

Lemma story_first_error_verdicts {X : Type} (error : X -> option exn)
      (classify : X -> option (bool * value)) (keep : X -> bool)
      (body : results -> X -> M results) (l : list X) (s : state) :
  (forall x r s1, keep x = true -> error x = None ->
     body r x s1 = Returns (round classify r x) s1) ->
  (forall x e r s1, keep x = true -> error x = Some e -> body r x s1 = Raises e s1) ->
  (forall x b v, classify x = Some (b, v) -> keep x = true) ->
  bind (for_each (filter keep l) body new_results) (fun r => ret (results_value r)) s
  = match first_error error (filter keep l) with
    | Some e => Raises e s
    | None => Returns (results_value (verdicts classify l)) s
    end.
Proof.
  intros Hgo Hstop Hkeep. unfold bind at 1.
  rewrite (for_each_first_error error (round classify)).
  - destruct (first_error error (filter keep l)); [reflexivity |].
    rewrite fold_round_filter by exact Hkeep.
    rewrite fold_round_verdicts. reflexivity.
  - intros x r s1 Hx. apply filter_In in Hx. apply Hgo, Hx.
  - intros x e r s1 Hx. apply filter_In in Hx. apply Hstop, Hx.
Qed.

(** ** US05: marriage before death *)

(** X8: US05 looks at the families with a marriage date in their order.  It
    raises [AttributeError] as soon as one of them lacks a husband or a
    wife, whatever the other families hold; otherwise it returns, with
    one entry for every such family in which a spouse has a death date:
    in [passed] when the marriage is before every recorded death, in
    [failed] otherwise.  In both cases the state is left as it is. *)
Theorem marriage_before_death_run (s : state) :
  marriage_before_death GedcomFile s
  = match first_error (marriage_before_death_error (graph s))
                      (filter (fun f => has (marriage_date f)) (families (graph s))) with
    | Some e => Raises e s
    | None => Returns (results_value
                         (verdicts (marriage_before_death_verdict (graph s))
                                   (families (graph s)))) s
    end.
Proof.
  unfold marriage_before_death. rewrite bind_File_of.
  apply story_first_error_verdicts.
  - intros fam r s1 Hmarr Herr.
    unfold marriage_before_death_error in Herr.
    unfold round, marriage_before_death_verdict, spouse_has_death_date, spouse_death_date,
      death_of.
    destruct (marriage_date fam) as [marr |]; [| discriminate].
    destruct (husband (graph s) fam) as [h |]; [| discriminate].
    destruct (wife (graph s) fam) as [w |]; [| discriminate].
    cbv [bind attr ret and_ has].
    destruct (death_date h) as [hd |]; destruct (death_date w) as [wd |];
      cbv [bind attr ret and_ has];
      repeat match goal with
             | |- context [Date_lt ?a ?b] => destruct (Date_lt a b)
             end; reflexivity.
  - intros fam e r s1 Hmarr Herr.
    unfold marriage_before_death_error in Herr.
    unfold spouse_has_death_date.
    destruct (marriage_date fam) as [marr |]; [| discriminate].
    destruct (husband (graph s) fam) as [h |];
      [destruct (wife (graph s) fam) as [w |]; [discriminate |] |];
      injection Herr as <-; cbv [bind attr ret and_ raise has];
      try (destruct (death_date h)); reflexivity.
  - intros fam b v. unfold marriage_before_death_verdict.
    destruct (marriage_date fam); [reflexivity | discriminate].
Qed.

(** ** US06: divorce before death *)

(** X9: US06 looks at the families with a divorce date in their order.  It
    raises [AttributeError] as soon as one of them lacks a husband or a
    wife, and also when the husband has a death date and the wife has
    none; so the entries it returns are of the families whose spouses
    are both dead or whose wife alone is dead.  A family is in [passed]
    when every recorded death is before the divorce.  In both cases the
    state is left as it is. *)
Theorem divorce_before_death_run (s : state) :
  divorce_before_death GedcomFile s
  = match first_error (divorce_before_death_error (graph s))
                      (filter (fun f => has (divorce_date f)) (families (graph s))) with
    | Some e => Raises e s
    | None => Returns (results_value
                         (verdicts (divorce_before_death_verdict (graph s))
                                   (families (graph s)))) s
    end.
Proof.
  unfold divorce_before_death. rewrite bind_File_of.
  apply story_first_error_verdicts.
  - intros fam r s1 Hdiv Herr.
    unfold divorce_before_death_error in Herr.
    unfold round, divorce_before_death_verdict, spouse_has_death_date, spouse_death_date,
      death_of.
    destruct (divorce_date fam) as [div |]; [| discriminate].
    destruct (husband (graph s) fam) as [h |]; [| discriminate].
    destruct (wife (graph s) fam) as [w |];
      [| destruct (has (death_date h)); discriminate].
    cbv [bind attr ret and_ has].
    destruct (death_date h) as [hd |]; destruct (death_date w) as [wd |];
      try discriminate;
      cbv [bind attr ret and_ has];
      repeat match goal with
             | |- context [Date_lt ?a ?b] => destruct (Date_lt a b)
             end; reflexivity.
  - intros fam e r s1 Hdiv Herr.
    unfold divorce_before_death_error in Herr.
    unfold spouse_has_death_date.
    destruct (divorce_date fam) as [div |]; [| discriminate].
    destruct (husband (graph s) fam) as [h |];
      [destruct (wife (graph s) fam) as [w |] |].
    + destruct (death_date h) as [hd |] eqn:Hhd;
        destruct (death_date w) as [wd |] eqn:Hwd; try discriminate.
      injection Herr as <-. cbv [bind attr ret and_ raise has].
      rewrite Hwd. reflexivity.
    + destruct (death_date h) as [hd |] eqn:Hhd; injection Herr as <-;
        cbv [bind attr ret and_ raise has]; rewrite ?Hhd; reflexivity.
    + injection Herr as <-. reflexivity.
  - intros fam b v. unfold divorce_before_death_verdict.
    destruct (divorce_date fam); [reflexivity | discriminate].
Qed.

(** ** US11: when two marriage intervals overlap *)

Lemma ltb_antisym (a b : datetime) : ltb a b = true -> ltb b a = false.
Proof.
  unfold ltb. destruct a as [y1 m1 d1 t1], b as [y2 m2 d2 t2]; simpl.
  rewrite !orb_true_iff, !andb_true_iff, !orb_true_iff, !andb_true_iff, !orb_true_iff,
    !andb_true_iff, !Z.ltb_lt, !Z.eqb_eq.
  intros H.
  destruct (y2 <? y1) eqn:Y; [apply Z.ltb_lt in Y; lia |].
  destruct (y2 =? y1) eqn:Ye; [apply Z.eqb_eq in Ye | reflexivity].
  destruct (m2 <? m1) eqn:Mo; [apply Z.ltb_lt in Mo; lia |].
  destruct (m2 =? m1) eqn:Me; [apply Z.eqb_eq in Me | reflexivity].
  destruct (d2 <? d1) eqn:D; [apply Z.ltb_lt in D; lia |].
  destruct (d2 =? d1) eqn:De; [apply Z.eqb_eq in De | reflexivity].
  destruct (t2 <? t1) eqn:T; [apply Z.ltb_lt in T; lia | reflexivity].
Qed.

(** [datetime] values are totally ordered: [a <= b] is not [b < a]. *)
Lemma leb_not_ltb (a b : datetime) : leb a b = negb (ltb b a).
Proof.
  unfold leb. destruct (ltb a b) eqn:Hab; simpl.
  - rewrite (ltb_antisym a b Hab). reflexivity.
  - revert Hab. unfold ltb, eqb.
    destruct a as [y1 m1 d1 t1], b as [y2 m2 d2 t2]; simpl.
    destruct (Z.ltb_spec y1 y2); simpl; [discriminate |].
    destruct (Z.ltb_spec y2 y1); simpl.
    { intros _. destruct (Z.eqb_spec y1 y2); [lia | reflexivity]. }
    assert (Hy : y1 = y2) by lia. subst y2. rewrite !Z.eqb_refl. simpl.
    destruct (Z.ltb_spec m1 m2); simpl; [discriminate |].
    destruct (Z.ltb_spec m2 m1); simpl.
    { intros _. destruct (Z.eqb_spec m1 m2); [lia | reflexivity]. }
    assert (Hm : m1 = m2) by lia. subst m2. rewrite !Z.eqb_refl. simpl.
    destruct (Z.ltb_spec d1 d2); simpl; [discriminate |].
    destruct (Z.ltb_spec d2 d1); simpl.
    { intros _. destruct (Z.eqb_spec d1 d2); [lia | reflexivity]. }
    assert (Hd : d1 = d2) by lia. subst d2. rewrite !Z.eqb_refl. simpl.
    destruct (Z.ltb_spec t1 t2); simpl; [discriminate |].
    intros _.
    destruct (Z.ltb_spec t2 t1); destruct (Z.eqb_spec t1 t2); try reflexivity; lia.
Qed.

(** X15: The test of US11 fails a pair of marriages unless one of the two
    intervals ends strictly before the other starts: two marriages that
    only touch, the one ending on the date the other starts, overlap, and
    so does a marriage without an end with every marriage that does not
    end before it starts. *)
Theorem overlap_unless_one_ends_before (start1 : datetime) (end1 : interval_end)
        (start2 : datetime) (end2 : interval_end) :
  overlap start1 end1 start2 end2
  = negb (ends_before end2 start1) && negb (ends_before end1 start2).
Proof.
  unfold overlap, datetime_le_end, end_ge_datetime, ends_before.
  destruct end2 as [d2 |], end1 as [d1 |]; rewrite ?leb_not_ltb; try reflexivity.
  - f_equal. rewrite eqb_sym. apply leb_not_ltb.
  - simpl. rewrite eqb_sym. apply leb_not_ltb.
Qed.

(** ** US13: how many pairs of siblings are judged *)

Lemma length_evidence_of {X : Type} (classify : X -> option (bool * value)) :
  forall (l : list X),
    (forall x, In x l -> classify x <> None) ->
    (List.length (evidence_of true classify l) + List.length (evidence_of false classify l)
     = List.length l)%nat.
Proof.
  induction l as [| x t IH]; intros Hsome; simpl; [reflexivity |].
  rewrite !length_app.
  specialize (IH (fun y Hy => Hsome y (or_intror Hy))).
  pose proof (Hsome x (or_introl eq_refl)) as Hx.
  destruct (classify x) as [[[|] v] |]; simpl; [lia | lia | contradiction].
Qed.

Lemma length_combinations2 {A : Type} (l : list A) :
  (2 * List.length (combinations2 l) = List.length l * (List.length l - 1))%nat.
Proof.
  induction l as [| x t IH]; simpl; [reflexivity |].
  rewrite length_app, length_map. nia.
Qed.

Lemma length_pairs_of {Y X : Type} (inner : Y -> list X) (ys : list Y) :
  List.length (pairs_of inner ys) = list_sum (map (fun y => List.length (inner y)) ys).
Proof.
  induction ys as [| y t IH]; simpl; [reflexivity |].
  rewrite length_app, length_map, IH. reflexivity.
Qed.

(** X17: US13 returns on every record graph and leaves the state as it is;
    a family with [n] children that have a birth date contributes
    [n * (n - 1) / 2] entries, one for every pair of them, and a family
    with fewer than two none. *)
Theorem siblings_spacing_count (s : state) :
  exists r,
    siblings_spacing GedcomFile s = Returns (results_value r) s
    /\ (2 * (List.length (passed r) + List.length (failed r))
        = list_sum (map (fun fam => dated_children (graph s) fam
                                    * (dated_children (graph s) fam - 1))
                        (families (graph s))))%nat.
Proof.
  exists (spacing_results (graph s)). split; [apply siblings_spacing_run |].
  unfold spacing_results, spacing_round.
  rewrite fold_fold_round_verdicts. simpl.
  rewrite length_evidence_of.
  - rewrite length_pairs_of. unfold sibling_pairs, dated_children.
    induction (families (graph s)) as [| fam t IH]; simpl; [reflexivity |].
    rewrite <- IH, <- length_combinations2. lia.
  - intros [fam [a b]] Hin. unfold pairs_of in Hin.
    apply in_flat_map in Hin. destruct Hin as (fam' & _ & Hin).
    apply in_map_iff in Hin. destruct Hin as (p & Heq & Hin).
    injection Heq as -> ->.
    apply sibling_pairs_born in Hin. destruct Hin as [Ha Hb].
    unfold spacing_verdict. simpl.
    destruct (birth_date a); [| discriminate Ha].
    destruct (birth_date b); [| discriminate Hb]. discriminate.
Qed.

(** ** US17: no marriages to descendants *)

Lemma printed_nil (s : state) : printed [] s = s.
Proof. unfold printed. rewrite app_nil_r. destruct s; reflexivity. Qed.

Lemma printed_printed (a b : list (list value)) (s : state) :
  printed b (printed a s) = printed (a ++ b) s.
Proof. unfold printed. simpl. rewrite app_assoc. reflexivity. Qed.

(** A loop that only prints, whatever its rounds print. *)
Lemma for_each_printed {A : Type} (body : unit -> A -> M unit)
      (lines : A -> list (list value)) :
  forall (l : list A),
    (forall x u s, In x l -> body u x s = Returns tt (printed (lines x) s)) ->
    forall u s, for_each l body u s = Returns tt (printed (flat_map lines l) s).
Proof.
  induction l as [| x t IH]; intros Hbody u s; simpl.
  - rewrite printed_nil. destruct u. reflexivity.
  - unfold bind. rewrite (Hbody x u s (or_introl eq_refl)).
    rewrite IH by (intros y u1 s1 Hy; apply Hbody; right; exact Hy).
    rewrite printed_printed. reflexivity.
Qed.

(** X18: US17 judges nothing: on every record graph it returns two empty
    lists, and all it does is print one line for every spouse of every
    child of every family, in the order of its three loops. *)
Theorem no_marriages_to_descendants_prints (s : state) :
  no_marriages_to_descendants GedcomFile s
  = Returns (results_value new_results) (printed (descendants_lines (graph s)) s).
Proof.
  unfold no_marriages_to_descendants. rewrite bind_File_of.
  erewrite bind_run; [reflexivity |].
  apply (for_each_printed _
           (fun fam => flat_map (fun indi => map (descendants_line fam indi)
                                                 (spouses (graph s) indi))
                                (children (graph s) fam))).
  intros fam u s1 _.
  apply (for_each_printed _
           (fun indi => map (descendants_line fam indi) (spouses (graph s) indi))).
  intros indi u1 s2 _.
  rewrite (for_each_printed _ (fun spouse => [descendants_line fam indi spouse])).
  - replace (flat_map (fun spouse => [descendants_line fam indi spouse])
                      (spouses (graph s) indi))
      with (map (descendants_line fam indi) (spouses (graph s) indi)); [reflexivity |].
    induction (spouses (graph s) indi) as [| x t IH]; simpl; [reflexivity |].
    rewrite IH. reflexivity.
  - intros spouse u2 s3 _. reflexivity.
Qed.

(** ** Loops within loops, whatever their rounds do *)

Lemma for_each_app {A R : Type} (body : R -> A -> M R) (l1 l2 : list A) :
  forall r s,
    for_each (l1 ++ l2) body r s = bind (for_each l1 body r) (for_each l2 body) s.
Proof.
  induction l1 as [| x t IH]; intros r s; simpl; [reflexivity |].
  unfold bind in *. destruct (body r x s) as [r1 s1 | e s1]; [apply IH | reflexivity].
Qed.

Lemma for_each_map {A B R : Type} (f : A -> B) (body : R -> B -> M R) (l : list A) :
  forall r s, for_each (map f l) body r s = for_each l (fun r x => body r (f x)) r s.
Proof.
  induction l as [| x t IH]; intros r s; simpl; [reflexivity |].
  unfold bind. destruct (body r (f x) s) as [r1 s1 | e s1]; [apply IH | reflexivity].
Qed.

(** A loop within a loop is a loop over the pairs. *)
Lemma for_each_pairs {Y X R : Type} (inner : Y -> list X) (body : Y -> R -> X -> M R)
      (ys : list Y) :
  forall r s,
    for_each ys (fun r y => for_each (inner y) (body y) r) r s
    = for_each (pairs_of inner ys) (fun r p => body (fst p) r (snd p)) r s.
Proof.
  induction ys as [| y t IH]; intros r s; simpl; [reflexivity |].
  rewrite for_each_app. unfold bind.
  replace (for_each (map (pair y) (inner y)) (fun r p => body (fst p) r (snd p)) r s)
    with (for_each (inner y) (body y) r s)
    by (rewrite for_each_map; reflexivity).
  destruct (for_each (inner y) (body y) r s) as [r1 s1 | e s1]; [apply IH | reflexivity].
Qed.

Lemma In_pairs_of {Y X : Type} (inner : Y -> list X) (ys : list Y) (y : Y) (x : X) :
  In (y, x) (pairs_of inner ys) <-> In y ys /\ In x (inner y).
Proof.
  unfold pairs_of. rewrite in_flat_map. split.
  - intros (y' & Hy & Hx). apply in_map_iff in Hx. destruct Hx as (x' & Heq & Hx).
    injection Heq as -> ->. split; assumption.
  - intros [Hy Hx]. exists y. split; [exact Hy |]. apply in_map. exact Hx.
Qed.

(** ** US09: birth before death of parents *)

(** X12: On a record graph in which every parent with a death date has a
    birth date too, US09 returns and leaves the state as it is, with one
    entry for every child with a birth date of every family.  The entry
    is in [passed] exactly when the child is born before the BIRTH of a
    mother who has died, and the days from the birth of the child to the
    BIRTH of a father who has died, divided by 30 with the quotient
    rounded down, exceed 9, that is, the father is born at least 300
    days after the child; a parent without a death date is no reason to
    fail. *)
Theorem birth_before_death_of_parents_verdicts (s : state) :
  (forall fam, In fam (families (graph s)) ->
     parent_dated (wife (graph s) fam) = true
     /\ parent_dated (husband (graph s) fam) = true) ->
  birth_before_death_of_parents GedcomFile s
  = Returns (results_value
               (verdicts (fun p => birth_before_death_of_parents_verdict
                                     (graph s) (fst p) (snd p))
                         (dated_children_of (graph s)))) s.
Proof.
  intros Hdated.
  unfold birth_before_death_of_parents. rewrite bind_File_of.
  unfold bind at 1. rewrite for_each_pairs.
  apply (story_loop_verdicts
           (fun p => birth_before_death_of_parents_verdict (graph s) (fst p) (snd p))
           (fun r p => birth_before_death_of_parents_child (graph s) (fst p) r (snd p))).
  intros [fam child] r s1 Hin. apply In_pairs_of in Hin. destruct Hin as [Hfam Hchild].
  apply filter_In in Hchild. destruct Hchild as [_ Hbirth].
  destruct (Hdated fam Hfam) as [Hw Hh]. unfold round. cbn [fst snd].
  unfold birth_before_death_of_parents_verdict,
    birth_before_death_of_parents_child, dead_parent, parent_dated, Date_lt_attr in *.
  destruct (birth_date child) as [birth |]; [| discriminate Hbirth].
  destruct (wife (graph s) fam) as [w |];
    [destruct (death_date w) as [wd |] eqn:Hwd;
     [destruct (birth_date w) as [wb |] eqn:Hwb; [| discriminate Hw] |] |];
    (destruct (husband (graph s) fam) as [h |];
     [destruct (death_date h) as [hd |] eqn:Hhd;
      [destruct (birth_date h) as [hb |] eqn:Hhb; [| discriminate Hh] |] |]);
    cbv [bind attr ret has None_or_True]; rewrite ?Hwb, ?Hhb;
    cbv [bind attr ret has None_or_True]; rewrite ?Hwd, ?Hhd; reflexivity.
Qed.

(** ** The decorators: what is logged, what is raised *)

Lemma logging_nil (s : state) : logging [] s = s.
Proof. unfold logging. rewrite app_nil_r. destruct s; reflexivity. Qed.

Lemma logging_logging (a b : list log_record) (s : state) :
  logging b (logging a s) = logging (a ++ b) s.
Proof. unfold logging. simpl. rewrite app_assoc. reflexivity. Qed.

(** The loop of [log] over the entries of one list. *)
Lemma log_loop (r : value) (id_ name status_ : string) (output : value) :
  r = VDict [("id", VStr id_); ("name", VStr name); ("output", output)] ->
  forall (entries : list value) (s : state),
    Forall (is_dict_in (store s)) entries ->
    for_each entries (fun _ entry =>
       m <- get_default entry "message" (VStr "") ;;
       i <- getitem r "id" ;;
       n <- getitem r "name" ;;
       logging_info m i status_ n) tt s
    = Returns tt (logging (log_records (store s) id_ name status_ entries) s).
Proof.
  intros ->. induction entries as [| entry t IH]; intros s Hall; simpl.
  - rewrite logging_nil. reflexivity.
  - inversion Hall as [| ? ? Hentry Ht]; subst.
    assert (Hround :
              (m <- get_default entry "message" (VStr "") ;;
               i <- getitem (VDict [("id", VStr id_); ("name", VStr name);
                                    ("output", output)]) "id" ;;
               n <- getitem (VDict [("id", VStr id_); ("name", VStr name);
                                    ("output", output)]) "name" ;;
               logging_info m i status_ n) s
              = Returns tt (logging [mk_log (message_in (store s) entry) (VStr id_)
                                            status_ (VStr name)] s)).
    { destruct entry; try contradiction.
      - reflexivity.
      - simpl in Hentry. apply nth_error_Some in Hentry.
        unfold get_default, items, bind, message_in.
        destruct (nth_error (store s) loc) as [d |]; [reflexivity | contradiction]. }
    unfold bind at 1. rewrite Hround.
    rewrite (IH (logging _ s) Ht). rewrite logging_logging. reflexivity.
Qed.

(** X1: A decorated story that returns lists of dictionaries wraps them under
    [output] next to its identifier and the name of its function, and
    logs one record for every entry: the [passed] ones first, then the
    [failed] ones, each list in its order, each record with the entry's
    [message], or the empty string where an entry has none.  Nothing
    else of the state changes. *)
Theorem story_logs_every_entry (id_ name : string) (func : argument -> M value)
        (s s1 : state) (r : results) :
  func GedcomFile s = Returns (results_value r) s1 ->
  Forall (is_dict_in (store s1)) (passed r) ->
  Forall (is_dict_in (store s1)) (failed r) ->
  story id_ name func GedcomFile s
  = Returns (VDict [("id", VStr id_); ("name", VStr name); ("output", results_value r)])
            (logging (log_records (store s1) id_ name "Passed" (passed r)
                      ++ log_records (store s1) id_ name "Failed" (failed r)) s1).
Proof.
  intros Hfunc Hpassed Hfailed.
  unfold story, log. simpl negb. cbv iota.
  unfold bind at 1. unfold bind at 1. rewrite Hfunc.
  unfold bind at 1. simpl.
  unfold bind at 1.
  rewrite (log_loop _ id_ name "Passed" (results_value r) eq_refl (passed r) s1 Hpassed).
  unfold bind at 1. simpl.
  unfold bind at 1.
  rewrite (log_loop _ id_ name "Failed" (results_value r) eq_refl (failed r)
             (logging _ s1) Hfailed).
  rewrite logging_logging. reflexivity.
Qed.

Lemma story_logs_every_entry_witness :
  story "Anomaly US10" "marriage_after_14" marriage_after_14 GedcomFile
        (initial graph_married_at_14)
  = Returns (VDict [("id", VStr "Anomaly US10"); ("name", VStr "marriage_after_14");
                    ("output",
                     results_value (verdicts (marriage_after_14_verdict graph_married_at_14)
                                             (families graph_married_at_14)))])
            (logging (log_records [] "Anomaly US10" "marriage_after_14" "Passed"
                        (evidence_of true (marriage_after_14_verdict graph_married_at_14)
                                     (families graph_married_at_14))
                      ++ log_records [] "Anomaly US10" "marriage_after_14" "Failed"
                           (evidence_of false (marriage_after_14_verdict graph_married_at_14)
                                        (families graph_married_at_14)))
                     (initial graph_married_at_14)).
Proof.
  apply (story_logs_every_entry "Anomaly US10" "marriage_after_14" marriage_after_14
           (initial graph_married_at_14) (initial graph_married_at_14)
           (verdicts (marriage_after_14_verdict graph_married_at_14)
                     (families graph_married_at_14))).
  - vm_compute. reflexivity.
  - vm_compute. constructor.
  - vm_compute. repeat constructor.
Defined.

(** X2: A decorated story raises what its function raises, in the state the
    function left, and logs nothing. *)
Theorem story_raises_what_func_raises (id_ name : string) (func : argument -> M value)
        (s s1 : state) (e : exn) :
  func GedcomFile s = Raises e s1 ->
  story id_ name func GedcomFile s = Raises e s1.
Proof.
  intros Hfunc. unfold story, log. simpl negb. cbv iota.
  unfold bind at 1. unfold bind at 1. rewrite Hfunc. reflexivity.
Qed.

Lemma story_raises_what_func_raises_witness :
  story "Error US06" "divorce_before_death" divorce_before_death GedcomFile
        (initial graph_no_wife)
  = Raises (AttributeError "death_date") (initial graph_no_wife).
Proof.
  apply (story_raises_what_func_raises "Error US06" "divorce_before_death"
           divorce_before_death (initial graph_no_wife) (initial graph_no_wife)).
  vm_compute. reflexivity.
Defined.

Lemma birth_before_death_of_parents_verdicts_witness :
  birth_before_death_of_parents GedcomFile (initial graph_posthumous_child)
  = Returns (results_value
               (verdicts (fun p => birth_before_death_of_parents_verdict
                                     graph_posthumous_child (fst p) (snd p))
                         (dated_children_of graph_posthumous_child)))
            (initial graph_posthumous_child).
Proof.
  apply (birth_before_death_of_parents_verdicts (initial graph_posthumous_child)).
  intros fam [<- | []]. split; reflexivity.
Defined.

(** ** US18: siblings should not marry *)

(** Rounds whose inner loop has nothing to go through change nothing. *)
Lemma for_each_no_inner {Y X R : Type} (inner : Y -> list X) (body : Y -> R -> X -> M R) :
  forall (ys : list Y),
    (forall y, In y ys -> inner y = []) ->
    forall r s, for_each ys (fun r y => for_each (inner y) (body y) r) r s = Returns r s.
Proof.
  induction ys as [| y t IH]; intros Hnone r s; simpl; [reflexivity |].
  unfold bind. rewrite (Hnone y (or_introl eq_refl)). simpl.
  apply IH. intros z Hz. apply Hnone. right. exact Hz.
Qed.

Lemma for_each_unchanged {A R : Type} (body : R -> A -> M R) :
  forall (l : list A),
    (forall x r s, In x l -> body r x s = Returns r s) ->
    forall r s, for_each l body r s = Returns r s.
Proof.
  induction l as [| x t IH]; intros Hbody r s; simpl; [reflexivity |].
  unfold bind. rewrite (Hbody x r s (or_introl eq_refl)).
  apply IH. intros y r1 s1 Hy. apply Hbody. right. exact Hy.
Qed.

(** X19: US18 raises [UnboundLocalError] whenever the first child with a
    spouse that its loops come to has no sibling in the family: the loop
    over the siblings, which binds [msg_out] and [out], has no round, and
    the branch for a child not married to a sibling reads them.  The
    families and children before that child have no spouses to go
    through; what comes after it is never looked at. *)
Theorem siblings_should_not_marry_raises_for_lone_child (s : state)
        (before after : list Family) (fam : Family)
        (earlier later : list Individual) (indi : Individual) :
  families (graph s) = before ++ fam :: after ->
  (forall f c, In f before -> In c (children (graph s) f) -> spouses (graph s) c = []) ->
  children (graph s) fam = earlier ++ indi :: later ->
  (forall c, In c earlier -> spouses (graph s) c = []) ->
  spouses (graph s) indi <> [] ->
  (forall c, In c (children (graph s) fam) -> indi_xref c = indi_xref indi) ->
  siblings_should_not_marry GedcomFile s = Raises (UnboundLocalError "msg_out") s.
Proof.
  intros Hfams Hbefore Hchildren Hearlier Hspouse Hlone.
  assert (Hnosib : forall l, (forall c, In c l -> indi_xref c = indi_xref indi) ->
                     filter (fun c => negb (String.eqb (indi_xref c) (indi_xref indi))) l
                     = []).
  { induction l as [| c t IH]; intros Hl; simpl; [reflexivity |].
    rewrite (Hl c (or_introl eq_refl)), String.eqb_refl. simpl.
    apply IH. intros c' Hc'. apply Hl. right. exact Hc'. }
  specialize (Hnosib _ Hlone).
  unfold siblings_should_not_marry. rewrite bind_File_of.
  rewrite Hfams. unfold bind at 1. rewrite for_each_app. unfold bind at 1.
  rewrite for_each_unchanged.
  2:{ intros f l s1 Hf. apply for_each_no_inner. intros c Hc. exact (Hbefore f c Hf Hc). }
  cbn [for_each]. unfold bind at 1.
  rewrite Hchildren at 1. rewrite for_each_app. unfold bind at 1.
  rewrite for_each_no_inner by exact Hearlier.
  cbn [for_each]. unfold bind at 1.
  destruct (spouses (graph s) indi) as [| spouse rest]; [contradiction Hspouse; reflexivity |].
  cbn [for_each]. unfold bind at 1. unfold bind at 1.
  rewrite Hnosib. reflexivity.
Qed.

Lemma siblings_should_not_marry_raises_for_lone_child_witness :
  siblings_should_not_marry GedcomFile (initial graph_only_child_married)
  = Raises (UnboundLocalError "msg_out") (initial graph_only_child_married).
Proof.
  apply (siblings_should_not_marry_raises_for_lone_child
           (initial graph_only_child_married) []
           [mk_Family "@F2@" (Some "@I1@") (Some "@I2@") [] None None]
           (mk_Family "@F1@" None None ["@I1@"] None None)
           [] [] (mk_Individual "@I1@" "M" None None ["@F1@"] ["@F2@"])).
  - reflexivity.
  - intros f c [].
  - reflexivity.
  - intros c [].
  - vm_compute. discriminate.
  - intros c [<- | []]. reflexivity.
Defined.

(** X20: US18 has nothing to judge where no child of a family is a spouse in
    any family: it returns two empty lists and allocates nothing. *)
Theorem siblings_should_not_marry_without_spouses (s : state) :
  (forall fam child, In fam (families (graph s)) -> In child (children (graph s) fam) ->
     spouses (graph s) child = []) ->
  siblings_should_not_marry GedcomFile s = Returns (results_value new_results) s.
Proof.
  intros Hnone. unfold siblings_should_not_marry. rewrite bind_File_of.
  unfold bind at 1. rewrite for_each_unchanged; [reflexivity |].
  intros fam l s1 Hfam. apply for_each_no_inner. intros c Hc. exact (Hnone fam c Hfam Hc).
Qed.

Lemma siblings_should_not_marry_without_spouses_witness :
  siblings_should_not_marry GedcomFile (initial graph_living_parents)
  = Returns (results_value new_results) (initial graph_living_parents).
Proof.
  apply (siblings_should_not_marry_without_spouses (initial graph_living_parents)).
  intros fam child [<- | []] [<- | []]. reflexivity.
Defined.

(** ** US11: no bigamy *)



Section TwoObjects.

(** A state that holds two more objects than the store [st]: the first
    at the location [length st], the second at the next one, which is
    [length (st ++ [d0])] whatever [d0] is. *)
Variable g : File.
Variable st : list pydict.
Variable o : list (list value).
Variable lg : list log_record.









End TwoObjects.





(** ** The decorated stories and other values *)

(** X3: Every decorated story refuses an argument that is not the
    [gedcom.File] object with a [TypeError], in the state it was called
    in: its function is not entered and nothing is logged. *)
Theorem decorated_refuses_other_values (entry : string * string * (argument -> M value))
        (v : value) (s : state) :
  decorated entry (NotAFile v) s
  = Raises (TypeError "Story function must be provided a gedcom file object.") s.
Proof. destruct entry as [[id_ name] func]. apply story_raises_TypeError. Qed.
